(** * edgarSECFrontEnd: the SEC 10-K front end, embedded and verified

    A shallow embedding of [10-K/edgarSECFrontEnd.py]: the nine concept
    fetchers ([getRevenue] ... [getShares]), the identifier lookup
    [getCIK], and the body of [main] that derives the margin, profit,
    net-income and per-share rows and the competitor-spend comparison.

    Modelling conventions.
    - Python numbers are [Num]: an [int] is a [Z], a [float] is an exact
      rational [Q].  Binary64 rounding error, infinities, NaN and the
      negative zero are therefore outside the model; [round(x, 2)] is
      round-half-even on the exact value and [int(x)] truncates towards
      zero.
    - A row (numpy array or Python list) is a [list Cell]; a DataFrame is
      the list of its rows in index order.
    - The network is a function from URL to [Response]; every call of
      [requests.get] and of a Streamlit widget is recorded in an event
      log, and Python exceptions are the left summand of the result. *)

From Stdlib Require Import ZArith QArith Qround Qabs List String Ascii Bool Lia Lqa.
From Stdlib Require Import DecimalString DecimalZ DecimalPos DecimalN.
Import ListNotations.

Local Open Scope string_scope.
Local Open Scope list_scope.

(** ** Python numbers *)

Inductive Num : Type :=
| PyInt (z : Z)
| PyFloat (q : Q).

Definition is_float (n : Num) : bool :=
  match n with PyInt _ => false | PyFloat _ => true end.

(** [float(n)] *)
Definition to_float (n : Num) : Q :=
  match n with PyInt z => inject_Z z | PyFloat q => q end.

(** [a - b]: an [int] when both are, a [float] otherwise. *)
Definition py_sub (a b : Num) : Num :=
  match a, b with
  | PyInt x, PyInt y => PyInt (x - y)
  | _, _ => PyFloat (to_float a - to_float b)%Q
  end.

(** [a * b] *)
Definition py_mul (a b : Num) : Num :=
  match a, b with
  | PyInt x, PyInt y => PyInt (x * y)
  | _, _ => PyFloat (to_float a * to_float b)%Q
  end.

(** [abs(a)] *)
Definition py_abs (a : Num) : Num :=
  match a with
  | PyInt x => PyInt (Z.abs x)
  | PyFloat q => PyFloat (Qabs q)
  end.

Definition is_zero (a : Num) : bool := Qeq_bool (to_float a) 0.

(** Nearest integer, ties to the even one. *)
Definition round_half_even (x : Q) : Z :=
  let f := Qfloor x in
  match (x - inject_Z f ?= 1 # 2)%Q with
  | Lt => f
  | Gt => (f + 1)%Z
  | Eq => if Z.even f then f else (f + 1)%Z
  end.

(** [round(x, 2)] on a float. *)
Definition round2 (x : Q) : Q := Qmake (round_half_even (x * 100)%Q) 100.

(** [round(a, 2)]: an [int] is returned unchanged. *)
Definition py_round2 (a : Num) : Num :=
  match a with
  | PyInt x => PyInt x
  | PyFloat q => PyFloat (round2 q)
  end.

(** [int(x)] on a float: truncation towards zero. *)
Definition py_int (x : Q) : Z := Z.quot (Qnum x) (Zpos (Qden x)).

(** ** Rendering numbers *)

(** [str(z)] for an [int]. *)
Definition str_int (z : Z) : string := NilZero.string_of_int (Z.to_int z).

Definition digit (z : Z) : ascii := ascii_of_N (48 + Z.to_N z).

(** The decimals of [r / d] (with [0 <= r < d]): at least one digit, then
    as many as the expansion needs, up to [fuel] further ones. *)
Fixpoint frac_digits (fuel : nat) (r d : Z) : string :=
  let r10 := (r * 10)%Z in
  let c := digit (r10 / d) in
  let r' := (r10 mod d)%Z in
  match fuel with
  | O => String c EmptyString
  | S fuel' =>
      if (r' =? 0)%Z then String c EmptyString
      else String c (frac_digits fuel' r' d)
  end.

(** [str(x)] for a float, in positional notation ("40.0", "33.33"). *)
Definition str_float (x : Q) : string :=
  let n := Qnum x in
  let d := Zpos (Qden x) in
  let a := Z.abs n in
  (if (n <? 0)%Z then "-" else "")
    ++ str_int (a / d) ++ "." ++ frac_digits 16 (a mod d) d.

(** [str(n)] *)
Definition py_str (n : Num) : string :=
  match n with PyInt z => str_int z | PyFloat q => str_float q end.

(** Thousands separators, on the reversed digits. *)
Fixpoint group_rev (l : list ascii) (k : nat) : list ascii :=
  match l with
  | [] => []
  | c :: l' =>
      match k with
      | O => ","%char :: c :: group_rev l' 2
      | S k' => c :: group_rev l' k'
      end
  end.

Definition group3 (z : Z) : string :=
  string_of_list_ascii
    (rev (group_rev (rev (list_ascii_of_string (str_int z))) 3)).

(** The format spec [:,.2f]: two decimals, thousands separated by commas. *)
Definition format_comma_2f (x : Q) : string :=
  let c := round_half_even (x * 100)%Q in
  let a := Z.abs c in
  (if (c <? 0)%Z then "-" else "")
    ++ group3 (a / 100) ++ "."
    ++ String (digit ((a mod 100) / 10)) (String (digit (a mod 10)) "").

(** [float(s)] on a string: an optional sign, digits, and an optional
    fractional part.  Exponents and the special values are not modelled
    (they raise [ValueError] here). *)
Fixpoint split_dot (s : string) : string * option string :=
  match s with
  | EmptyString => (EmptyString, None)
  | String c s' =>
      if Ascii.eqb c "." then (EmptyString, Some s')
      else let (a, b) := split_dot s' in (String c a, b)
  end.

Definition parse_float (s : string) : option Q :=
  let (ip, fp) := split_dot s in
  match NilZero.int_of_string ip with
  | None => None
  | Some i =>
      match fp with
      | None => Some (inject_Z (Z.of_int i))
      | Some f =>
          match NilEmpty.uint_of_string f with
          | None => None
          | Some u =>
              let frac := Qmake (Z.of_uint u) (Pos.of_nat (Nat.pow 10 (String.length f))) in
              Some (match i with
                    | Decimal.Pos _ => (inject_Z (Z.of_int i) + frac)%Q
                    | Decimal.Neg _ => (inject_Z (Z.of_int i) - frac)%Q
                    end)
          end
      end
  end.

(** ** Strings: [strip], [upper], [zfill] *)

Definition is_space (c : ascii) : bool :=
  let n := N_of_ascii c in
  ((9 <=? n) && (n <=? 13) || (28 <=? n) && (n <=? 32))%N.

Fixpoint lstrip (s : string) : string :=
  match s with
  | EmptyString => EmptyString
  | String c s' => if is_space c then lstrip s' else s
  end.

Definition strip (s : string) : string :=
  let r := string_of_list_ascii (rev (list_ascii_of_string (lstrip s))) in
  string_of_list_ascii (rev (list_ascii_of_string (lstrip r))).

Definition upper_char (c : ascii) : ascii :=
  let n := N_of_ascii c in
  if ((97 <=? n) && (n <=? 122))%N then ascii_of_N (n - 32) else c.

Fixpoint upper (s : string) : string :=
  match s with
  | EmptyString => EmptyString
  | String c s' => String (upper_char c) (upper s')
  end.

Fixpoint zeros (n : nat) : string :=
  match n with O => EmptyString | S n' => String "0" (zeros n') end.

(** [s.zfill(width)] for an unsigned digit string. *)
Definition zfill (width : nat) (s : string) : string :=
  zeros (width - String.length s) ++ s.

(** ** Rows, tables, events and the exception monad *)

Inductive Cell : Type :=
| CStr (s : string)
| CNum (n : Num).

Definition Row : Type := list Cell.
Definition Table : Type := list Row.

(** [str(c)], as numpy applies it when a mixed list becomes an array. *)
Definition cell_str (c : Cell) : string :=
  match c with CStr s => s | CNum n => py_str n end.

(** [a == b] on cells. *)
Definition cell_eqb (a b : Cell) : bool :=
  match a, b with
  | CStr s, CStr t => String.eqb s t
  | CNum x, CNum y => Qeq_bool (to_float x) (to_float y)
  | _, _ => false
  end.

Inductive Exn : Type :=
| ConnectionError
| JSONDecodeError
| KeyError
| IndexError
| TypeError
| ValueError
| ZeroDivisionError
| UnboundLocalError.

Inductive Event : Type :=
| HttpGet (url : string)
| StTitle (s : string)
| StWrite (s : string)
| StError (msg : string) (e : Exn)
| StDivider
| StSubheader (s : string)
| StSuccess (s : string)
| StWarning (s : string)
| StTextInput (label value : string)
| StTable (t : Table).

(** A computation logs events and either raises or returns. *)
Definition M (A : Type) : Type := (list Event * (Exn + A))%type.

Definition ret {A} (a : A) : M A := ([], inr a).
Definition raise {A} (e : Exn) : M A := ([], inl e).
Definition emit (ev : Event) : M unit := ([ev], inr tt).

Definition bind {A B} (m : M A) (f : A -> M B) : M B :=
  match snd m with
  | inl e => (fst m, inl e)
  | inr a => let r := f a in (fst m ++ fst r, snd r)
  end.

(** [try: m except Exception as e: h e] *)
Definition catch {A} (m : M A) (h : Exn -> M A) : M A :=
  match snd m with
  | inl e => let r := h e in (fst m ++ fst r, snd r)
  | inr a => m
  end.

Notation "x <- m ;; k" := (bind m (fun x => k))
  (at level 61, m at next level, right associativity).
Notation "m ;;; k" := (bind m (fun _ => k))
  (at level 61, right associativity).

(** [len(row) == 4] *)
Definition len4 (r : Row) : bool := Nat.eqb (List.length r) 4.

(** [row[i]], with Python's negative indices. *)
Definition getitem (r : Row) (i : Z) : M Cell :=
  let n := Z.of_nat (List.length r) in
  let j := (if i <? 0 then i + n else i)%Z in
  if ((0 <=? j) && (j <? n))%Z
  then match nth_error r (Z.to_nat j) with
       | Some c => ret c
       | None => raise IndexError
       end
  else raise IndexError.

(** The cell as a number operand; arithmetic on a string raises. *)
Definition as_num (c : Cell) : M Num :=
  match c with CNum n => ret n | CStr _ => raise TypeError end.

(** [float(c)] *)
Definition py_float (c : Cell) : M Q :=
  match c with
  | CNum n => ret (to_float n)
  | CStr s => match parse_float s with
              | Some q => ret q
              | None => raise ValueError
              end
  end.

(** [a / b], true division. *)
Definition truediv (a b : Num) : M Q :=
  if is_zero b then raise ZeroDivisionError
  else ret (to_float a / to_float b)%Q.

(** [np.array(l)] on a list that holds a string: every cell becomes one. *)
Definition np_array (l : Row) : Row := map (fun c => CStr (cell_str c)) l.

(** [display_table.loc[len(display_table)] = row] *)
Definition append_row (t : Table) (r : Row) : Table := t ++ [r].

(** [df['Value'] = df['Value'].astype(str)], the second column. *)
Definition value_str (r : Row) : Row :=
  match r with
  | l :: v :: tl => l :: CStr (cell_str v) :: tl
  | _ => r
  end.

Definition value_astype_str (t : Table) : Table := map value_str t.

(** Reading a local that an untaken branch left unassigned. *)
Definition local {A} (v : option A) : M A :=
  match v with Some a => ret a | None => raise UnboundLocalError end.

(** ** The network *)

Record Observation : Type := {
  val : Num;
  form : string;
  filed : string
}.

Record TickerEntry : Type := {
  cik_str : N;
  ticker : string
}.

Inductive Body : Type :=
| CompanyTickers (entries : list TickerEntry)
| CompanyConcept (units : list (string * list Observation))
| Garbage.

Inductive Response : Type :=
| Unreachable
| Served (b : Body).

Definition World : Type := string -> Response.

(** [requests.get(url, ...)] followed by [.json()]. *)
Definition requests_get_json (w : World) (url : string) : M Body :=
  emit (HttpGet url) ;;;
  match w url with
  | Unreachable => raise ConnectionError
  | Served Garbage => raise JSONDecodeError
  | Served b => ret b
  end.

Fixpoint lookup {A} (k : string) (d : list (string * A)) : option A :=
  match d with
  | [] => None
  | (k', v) :: d' => if String.eqb k' k then Some v else lookup k d'
  end.

(** ** getCIK *)

Definition str_N (n : N) : string := NilZero.string_of_uint (N.to_uint n).

Definition getCIK (w : World) (tkr : string) : M (option string) :=
  companyTickers <- requests_get_json w "https://www.sec.gov/files/company_tickers.json" ;;
  match companyTickers with
  | CompanyTickers [] => raise KeyError
  | CompanyTickers companyData =>
      let result :=
        map (fun e => zfill 10 (str_N (cik_str e)))
            (filter (fun e => String.eqb (upper (ticker e)) (upper tkr)) companyData) in
      ret (match result with [] => None | c :: _ => Some c end)
  | _ => raise KeyError
  end.

(** ** The concept fetchers *)

Definition us_gaap_url (cik tag : string) : string :=
  "https://data.sec.gov/api/xbrl/companyconcept/CIK" ++ cik ++ "/us-gaap/" ++ tag ++ ".json".

(** The [val] column holds floats as soon as one observation does. *)
Definition val_column (obs : list Observation) (o : Observation) : Num :=
  if existsb (fun x => is_float (val x)) obs then PyFloat (to_float (val o)) else val o.

(** The [try] body shared by the nine fetchers: the observations of one
    unit, those of form 10-K, the last of them flattened behind the label. *)
Definition latest_10k (w : World) (cik tag unit label : string) : M Row :=
  body <- requests_get_json w (us_gaap_url cik tag) ;;
  match body with
  | CompanyConcept units =>
      match lookup unit units with
      | None => raise KeyError
      | Some [] => raise KeyError
      | Some obs =>
          let df_10k := filter (fun o => String.eqb (form o) "10-K") obs in
          let row := match rev df_10k with
                     | [] => []
                     | o :: _ => [CNum (val_column obs o); CStr (form o); CStr (filed o)]
                     end in
          ret (CStr label :: row)
      end
  | _ => raise KeyError
  end.

Definition getRevenue (w : World) (cik : string) : M Row :=
  catch (latest_10k w cik "Revenues" "USD" "Revenue") (fun _ => ret []).

Definition getCostRevenue (w : World) (cik : string) : M Row :=
  catch (latest_10k w cik "CostOfRevenue" "USD" "Cost Of Revenue") (fun _ => ret []).

Definition getGrossProfit (w : World) (cik : string) : M Row :=
  catch (latest_10k w cik "GrossProfit" "USD" "Gross Profit") (fun _ => ret []).

Definition getSGA (w : World) (cik : string) : M Row :=
  catch (latest_10k w cik "SellingGeneralAndAdministrativeExpense" "USD"
           "Selling, General & Admin Costs") (fun _ => ret []).

Definition getInterestExpense (w : World) (cik : string) : M Row :=
  catch (latest_10k w cik "InterestExpense" "USD" "Interest Expense") (fun _ => ret []).

(** [row[1] = v] *)
Definition setitem1 (r : Row) (v : Cell) : M Row :=
  match r with
  | l :: _ :: tl => ret (l :: v :: tl)
  | _ => raise IndexError
  end.

Definition getIncomeExpense (w : World) (cik : string) : M Row :=
  catch (row <- latest_10k w cik "OtherNonoperatingIncomeExpense" "USD"
                  "Other Nonoperating Income (Expense), net" ;;
         c <- getitem row 1 ;;
         n <- as_num c ;;
         setitem1 row (CNum (py_abs n)))
        (fun _ => ret []).

Definition getIncomeTax (w : World) (cik : string) : M Row :=
  catch (latest_10k w cik "IncomeTaxesPaidNet" "USD" "Income Taxes Paid, Net") (fun _ => ret []).

Definition getTaxRate (w : World) (cik : string) : M Row :=
  catch (row <- latest_10k w cik "EffectiveIncomeTaxRateContinuingOperations" "pure"
                  "Effective Tax Rate" ;;
         c <- getitem row 1 ;;
         n <- as_num c ;;
         setitem1 row (CStr (py_str (py_mul n (PyInt 100)) ++ "%")))
        (fun _ => ret []).

Definition getShares (w : World) (cik : string) : M Row :=
  catch (latest_10k w cik "CommonStockSharesOutstanding" "shares"
           "Common Stock Shares Outstanding") (fun _ => ret []).

(** ** The derived rows of [main] *)

(** [len(a) == 4 and len(b) == 4 and a[-1] == b[-1]] *)
Definition aligned (a b : Row) : M bool :=
  if len4 a && len4 b
  then x <- getitem a (-1) ;; y <- getitem b (-1) ;; ret (cell_eqb x y)
  else ret false.

(** The three percentage rows share one shape:
    [[label, str(round((x / revenue_row[1])*100, 2)) + "%", revenue_row[2], revenue_row[-1]]],
    built when [revenue_row] and the row [x] comes from are aligned. *)
Definition percent_of_revenue (label : string) (revenue_row x_row : Row) : M Row :=
  ok <- aligned revenue_row x_row ;;
  if ok : bool then
    xc <- getitem x_row 1 ;; x <- as_num xc ;;
    rc <- getitem revenue_row 1 ;; r <- as_num rc ;;
    q <- truediv x r ;;
    f <- getitem revenue_row 2 ;;
    d <- getitem revenue_row (-1) ;;
    ret [CStr label; CStr (str_float (round2 (q * 100)%Q) ++ "%"); f; d]
  else ret [].

Definition gross_margin_list (revenue_row cost_row : Row) : M Row :=
  percent_of_revenue "Gross Margin" revenue_row cost_row.

Definition sga_margin_list (revenue_row sga_row : Row) : M Row :=
  percent_of_revenue "SGA Percent of Revenue" revenue_row sga_row.

Definition operating_profit_list (profit_row sga_row : Row) : M Row :=
  ok <- aligned profit_row sga_row ;;
  if ok : bool then
    pc <- getitem profit_row 1 ;; p <- as_num pc ;;
    sc <- getitem sga_row 1 ;; s <- as_num sc ;;
    f <- getitem profit_row 2 ;;
    d <- getitem profit_row (-1) ;;
    ret [CStr "Operating Profit"; CNum (py_round2 (py_sub p s)); f; d]
  else ret [].

Definition operating_profit_margin_list (revenue_row operating_profit_list : Row) : M Row :=
  percent_of_revenue "Operating Margin" revenue_row operating_profit_list.

(** [net_income_row] together with the local [net_income_val], which is
    assigned only inside the branch. *)
Definition net_income_row (operating_profit_list interest_row income_row income_tax_row : Row)
  : M (Row * option Z) :=
  if len4 operating_profit_list && len4 interest_row && len4 income_row && len4 income_tax_row
  then
    a <- getitem operating_profit_list (-1) ;;
    b <- getitem interest_row (-1) ;;
    c <- getitem income_row (-1) ;;
    d <- getitem income_tax_row (-1) ;;
    if cell_eqb a b && cell_eqb b c && cell_eqb c d
    then
      oc <- getitem operating_profit_list 1 ;; o <- py_float oc ;;
      ic <- getitem interest_row 1 ;; i <- py_float ic ;;
      ec <- getitem income_row 1 ;; e <- py_float ec ;;
      tc <- getitem income_tax_row 1 ;; t <- py_float tc ;;
      let net_income_val := py_int (round2 (o - i - e - t)%Q) in
      f <- getitem operating_profit_list 2 ;;
      dd <- getitem operating_profit_list (-1) ;;
      ret (np_array [CStr "Net Income"; CNum (PyInt net_income_val); f; dd],
           Some net_income_val)
    else ret ([], None)
  else ret ([], None).

Definition income_share_list (shares_row net_income_row : Row) : M Row :=
  ok <- aligned shares_row net_income_row ;;
  if ok : bool then
    nc <- getitem net_income_row 1 ;; n <- py_float nc ;;
    sc <- getitem shares_row 1 ;; s <- py_float sc ;;
    q <- truediv (PyFloat n) (PyFloat s) ;;
    f <- getitem shares_row 2 ;;
    d <- getitem shares_row (-1) ;;
    ret [CStr "Net Income per share - Diluted"; CNum (PyFloat (round2 q)); f; d]
  else ret [].

(** The guarded append [if len(row) == 4: display_table.loc[...] = row].
    A derived list has four cells exactly when its branch ran, so the
    append inside that branch is the same guarded append. *)
Definition add_if4 (t : Table) (r : Row) : Table :=
  if len4 r then append_row t r else t.

(** The locals of [main] that the comparison table reads. *)
Record Locals : Type := {
  l_revenue_row : Row;
  l_sga_row : Row;
  l_operating_profit_list : Row;
  l_net_income_row : Row;
  l_net_income_val : option Z;
  l_shares_row : Row;
  l_income_share_list : Row
}.

(** The metrics table: fetches and derivations in source order. *)
Definition display_table (w : World) (cik : string) : M (Table * Locals) :=
  let t : Table := [] in
  revenue_row <- getRevenue w cik ;;
  let t := add_if4 t revenue_row in
  cost_row <- getCostRevenue w cik ;;
  let t := add_if4 t cost_row in
  gross_margin <- gross_margin_list revenue_row cost_row ;;
  let t := add_if4 t (np_array gross_margin) in
  profit_row <- getGrossProfit w cik ;;
  let t := add_if4 t profit_row in
  sga_row <- getSGA w cik ;;
  let t := add_if4 t sga_row in
  sga_margin <- sga_margin_list revenue_row sga_row ;;
  let t := add_if4 t (np_array sga_margin) in
  operating_profit <- operating_profit_list profit_row sga_row ;;
  let t := add_if4 t (np_array operating_profit) in
  operating_profit_margin <- operating_profit_margin_list revenue_row operating_profit ;;
  let t := add_if4 t (np_array operating_profit_margin) in
  interest_row <- getInterestExpense w cik ;;
  let t := add_if4 t interest_row in
  income_row <- getIncomeExpense w cik ;;
  let t := add_if4 t income_row in
  income_tax_row <- getIncomeTax w cik ;;
  let t := add_if4 t income_tax_row in
  tax_row <- getTaxRate w cik ;;
  let t := add_if4 t tax_row in
  net_income <- net_income_row operating_profit interest_row income_row income_tax_row ;;
  let t := add_if4 t (fst net_income) in
  shares_row <- getShares w cik ;;
  let t := add_if4 t shares_row in
  income_share <- income_share_list shares_row (fst net_income) ;;
  let t := add_if4 t (np_array income_share) in
  ret (value_astype_str t,
       {| l_revenue_row := revenue_row;
          l_sga_row := sga_row;
          l_operating_profit_list := operating_profit;
          l_net_income_row := fst net_income;
          l_net_income_val := snd net_income;
          l_shares_row := shares_row;
          l_income_share_list := income_share |}).

(** ** The competitor-spend comparison *)

(** [round(float(s) * 0.53, 2) - round(float(s) * 0.53 * .25, 2)] *)
Definition oci_spend (competitor_cloud_spend : Q) : Q :=
  (round2 (competitor_cloud_spend * (53 # 100))
   - round2 (competitor_cloud_spend * (53 # 100) * (25 # 100)))%Q.

(** [abs(oci_spend - competitor_cloud_spend)] *)
Definition tech_saved (competitor_cloud_spend : Q) : Q :=
  Qabs (oci_spend competitor_cloud_spend - competitor_cloud_spend).

Definition dollars (x : Q) : Cell := CStr ("$" ++ format_comma_2f x).
Definition percent (x : Q) : Cell := CStr (format_comma_2f x ++ "%").

(** [cell / row[1]] with a float numerator. *)
Definition div_by_val (x : Q) (r : Row) : M Q :=
  c <- getitem r 1 ;; n <- as_num c ;; truediv (PyFloat x) n.

Definition spend_table (v : Locals) (competitor_cloud_spend : Q) : M Table :=
  let revenue_row := l_revenue_row v in
  let sga_row := l_sga_row v in
  let operating_profit_list := l_operating_profit_list v in
  let shares_row := l_shares_row v in
  let t : Table := [] in
  t <- (if len4 sga_row then
          q <- div_by_val competitor_cloud_spend sga_row ;;
          let percent_sga := round2 (q * 100)%Q in
          ret (append_row t [CStr "% of SGA for Original Tech Spend"; percent percent_sga])
        else ret t) ;;
  let oci := oci_spend competitor_cloud_spend in
  let t := append_row t [CStr "OCI Spend (Including Support Rewards)"; dollars oci] in
  let saved := tech_saved competitor_cloud_spend in
  let t := append_row t [CStr "Amount Saved (Between OCI & Origional Cloud Spend)"; dollars saved] in
  a <- (if len4 sga_row then
          c <- getitem sga_row 1 ;; n <- as_num c ;;
          let oci_sga := (to_float n - saved)%Q in
          ret (append_row t [CStr "SGA when Using OCI"; dollars oci_sga], Some oci_sga)
        else ret (t, None)) ;;
  let t := fst a in
  let oci_sga : option Q := snd a in
  ok <- aligned revenue_row sga_row ;;
  t <- (if ok : bool then
          x <- local oci_sga ;;
          q <- div_by_val x revenue_row ;;
          let oci_sga_margin := round2 (q * 100)%Q in
          let t := append_row t [CStr "SGA percent of Revenue (with OCI)"; percent oci_sga_margin] in
          sc <- getitem sga_row 1 ;; sn <- as_num sc ;;
          rc <- getitem revenue_row 1 ;; rn <- as_num rc ;;
          q' <- truediv sn rn ;;
          let sga_change := (round2 (q' * 100) - oci_sga_margin)%Q in
          ret (append_row t [CStr "Change In SGA percent of Revenue"; percent sga_change])
        else ret t) ;;
  b <- (if len4 operating_profit_list then
          c <- getitem operating_profit_list 1 ;; n <- as_num c ;;
          let oci_op_profit := (to_float n - saved)%Q in
          x <- local oci_sga ;;
          ret (append_row t [CStr "Operating Profit"; dollars x], Some oci_op_profit)
        else ret (t, None)) ;;
  let t := fst b in
  let oci_op_profit : option Q := snd b in
  ok <- aligned revenue_row operating_profit_list ;;
  t <- (if ok : bool then
          x <- local oci_op_profit ;;
          q <- div_by_val x revenue_row ;;
          let oci_op_margin := round2 (q * 100)%Q in
          let t := append_row t [CStr "Operating Profit Margin (with OCI)"; percent oci_op_margin] in
          oc <- getitem operating_profit_list 1 ;; on <- as_num oc ;;
          rc <- getitem revenue_row 1 ;; rn <- as_num rc ;;
          q' <- truediv on rn ;;
          let op_margin_change := (round2 (q' * 100) - oci_op_margin)%Q in
          ret (append_row t [CStr "Change In Operating Margin"; percent op_margin_change])
        else ret t) ;;
  c <- (if len4 (l_net_income_row v) then
          nv <- local (l_net_income_val v) ;;
          let oci_net_income := (inject_Z nv + saved)%Q in
          ret (append_row t [CStr "Net Income (with OCI)"; dollars oci_net_income],
               Some oci_net_income)
        else ret (t, None)) ;;
  let t := fst c in
  let oci_net_income : option Q := snd c in
  if len4 (l_income_share_list v) then
    x <- local oci_net_income ;;
    sc <- getitem shares_row 1 ;; s <- py_float sc ;;
    q <- truediv (PyFloat x) (PyFloat s) ;;
    let oci_income_shares := round2 q in
    nv <- local (l_net_income_val v) ;;
    sc' <- getitem shares_row 1 ;; s' <- py_float sc' ;;
    q' <- truediv (PyFloat (inject_Z nv)) (PyFloat s') ;;
    let oci_shares_change := Qabs (round2 q' - oci_income_shares) in
    let t := append_row t [CStr "Net Income per share - Diluted (with OCI)"; dollars oci_income_shares] in
    ret (append_row t [CStr "Net Income per share - Diluted (change)"; dollars oci_shares_change])
  else ret t.

(** ** main *)

Definition nonempty (s : string) : bool :=
  match s with EmptyString => false | _ => true end.

(** [if cik:] *)
Definition truthy (cik : option string) : bool :=
  match cik with Some c => nonempty c | None => false end.

Definition main (w : World) (user_input : string) (competitor_cloud_spend : Q)
    (submitted : bool) : M unit :=
  emit (StTitle "SEC Data Retrieval") ;;;
  emit (StWrite "Enter a stock ticker and submit to fetch its CIK, displayed below in a read-only text box.") ;;;
  if submitted then
    let clean := upper (strip user_input) in
    if nonempty clean then
      cik <- catch (getCIK w clean)
                   (fun e => emit (StError "Error looking up CIK: " e) ;;; ret None) ;;
      emit StDivider ;;;
      emit (StSubheader "Results") ;;;
      if truthy cik then
        emit (StSuccess ("Ticker: " ++ clean)) ;;;
        emit (StTextInput "CIK" (match cik with Some c => c | None => "None" end)) ;;;
        r <- display_table w (match cik with Some c => c | None => "None" end) ;;
        emit (StTable (fst r)) ;;;
        st <- spend_table (snd r) competitor_cloud_spend ;;
        emit (StTable st)
      else
        emit (StWarning "Ticker not found. Please verify the symbol.") ;;;
        emit (StTextInput "CIK" "Not found")
    else
      emit (StWarning "Please enter a non-empty ticker.")
  else ret tt.

(** ** Reading the outcome of a run *)

(** The tables handed to [st.table], in order. *)
Definition tables_of (l : list Event) : list Table :=
  flat_map (fun e => match e with StTable t => [t] | _ => [] end) l.


(** The first table rendered is the metrics table, the second the comparison. *)
Definition rendered_metrics (run : M unit) : option Table := nth_error (tables_of (fst run)) 0.
Definition rendered_comparison (run : M unit) : option Table := nth_error (tables_of (fst run)) 1.

Definition label_is (L : string) (r : Row) : bool :=
  match r with CStr l :: _ => String.eqb l L | _ => false end.

(** The row of a table that carries a given metric label. *)
Definition find_metric (L : string) (t : Table) : option Row := find (label_is L) t.

Definition has_metric (L : string) (t : Table) : bool :=
  match find_metric L t with Some _ => true | None => false end.

(** The submission date of a four-cell row. *)
Definition filed_of (r : Row) : option Cell := nth_error r 3.

(** The value cell of a row. *)
Definition value_of (r : Row) : option Cell := nth_error r 1.

(** What a fetcher returned (it never raises, see [fetch_total]). *)
Definition tickers_url : string := "https://www.sec.gov/files/company_tickers.json".

(** A computation that renders no table. *)
Definition quiet {A} (m : M A) : Prop := tables_of (fst m) = [].

Definition returned (m : M Row) : Row :=
  match snd m with inr r => r | inl _ => [] end.

(** The nine rows [main] reads, named as its locals. *)
Definition revenue_row (w : World) (cik : string) : Row := returned (getRevenue w cik).
Definition cost_row (w : World) (cik : string) : Row := returned (getCostRevenue w cik).
Definition profit_row (w : World) (cik : string) : Row := returned (getGrossProfit w cik).
Definition sga_row (w : World) (cik : string) : Row := returned (getSGA w cik).
Definition interest_row (w : World) (cik : string) : Row := returned (getInterestExpense w cik).
Definition income_row (w : World) (cik : string) : Row := returned (getIncomeExpense w cik).
Definition income_tax_row (w : World) (cik : string) : Row := returned (getIncomeTax w cik).
Definition tax_row (w : World) (cik : string) : Row := returned (getTaxRate w cik).
Definition shares_row (w : World) (cik : string) : Row := returned (getShares w cik).


(** The labels of the metrics table, in row order. *)
Definition display_labels : list string :=
  ["Revenue"; "Cost Of Revenue"; "Gross Margin"; "Gross Profit";
   "Selling, General & Admin Costs"; "SGA Percent of Revenue";
   "Operating Profit"; "Operating Margin"; "Interest Expense";
   "Other Nonoperating Income (Expense), net"; "Income Taxes Paid, Net";
   "Effective Tax Rate"; "Net Income"; "Common Stock Shares Outstanding";
   "Net Income per share - Diluted"].

(** The shapes a fetched or derived row can take: nothing, the bare
    label, or label, value, form and submission date. *)
Inductive labelled (L : string) : Row -> Prop :=
| labelled_nil : labelled L []
| labelled_bare : labelled L [CStr L]
| labelled_fact v f d : labelled L [CStr L; v; CStr f; CStr d].

(** A row whose value cell, when there is one, is a number. *)
Inductive fact_shape : Row -> Prop :=
| fact_nil : fact_shape []
| fact_label l : fact_shape [CStr l]
| fact_num l n f d : fact_shape [CStr l; CNum n; CStr f; CStr d].

(** Gate and projections on shaped rows. *)
Definition row_val (r : Row) : Num :=
  match r with [_; CNum n; _; _] => n | _ => PyInt 0 end.
Definition row_form (r : Row) : Cell := nth 2 r (CStr "").
Definition row_filed (r : Row) : Cell := nth 3 r (CStr "").

Definition aligned_b (a b : Row) : bool :=
  len4 a && len4 b && cell_eqb (row_filed a) (row_filed b).

(** The rows the derivations build, as functions of the rows read. *)
Definition percent_row (L : string) (rev x : Row) : Row :=
  [CStr L;
   CStr (str_float (round2 (to_float (row_val x) / to_float (row_val rev) * 100)%Q) ++ "%");
   row_form rev; row_filed rev].

Definition operating_profit_of (profit_row sga_row : Row) : Row :=
  if aligned_b profit_row sga_row
  then [CStr "Operating Profit";
        CNum (py_round2 (py_sub (row_val profit_row) (row_val sga_row)));
        row_form profit_row; row_filed profit_row]
  else [].

(** The four-way gate of Net Income. *)
Definition aligned4_b (a b c d : Row) : bool :=
  len4 a && len4 b && len4 c && len4 d
  && (cell_eqb (row_filed a) (row_filed b)
      && cell_eqb (row_filed b) (row_filed c)
      && cell_eqb (row_filed c) (row_filed d)).

Definition net_income_val_of (o i e t : Row) : Z :=
  py_int (round2 (to_float (row_val o) - to_float (row_val i)
                  - to_float (row_val e) - to_float (row_val t))%Q).

Definition net_income_of (o i e t : Row) : Row * option Z :=
  if aligned4_b o i e t
  then ([CStr "Net Income"; CStr (str_int (net_income_val_of o i e t));
         row_form o; row_filed o],
        Some (net_income_val_of o i e t))
  else ([], None).

Definition income_share_of (shares_row : Row) (net_income_val : Z) : Row :=
  [CStr "Net Income per share - Diluted";
   CNum (PyFloat (round2 (inject_Z net_income_val / to_float (row_val shares_row))%Q));
   row_form shares_row; row_filed shares_row].

(** The value of [display_table] as a function of the nine rows read:
    only the three percentage rows and the per-share row can raise. *)
Definition metrics_of (rev cost gp sga ie oi it tax sh : Row) : Exn + (Table * Locals) :=
  match snd (gross_margin_list rev cost) with
  | inl e => inl e
  | inr gm =>
  match snd (sga_margin_list rev sga) with
  | inl e => inl e
  | inr sm =>
  let op := operating_profit_of gp sga in
  match snd (operating_profit_margin_list rev op) with
  | inl e => inl e
  | inr om =>
  let ni := net_income_of op ie oi it in
  match snd (income_share_list sh (fst ni)) with
  | inl e => inl e
  | inr eps =>
      inr (value_astype_str
             (filter len4
                [rev; cost; np_array gm; gp; sga; np_array sm; np_array op;
                 np_array om; ie; oi; it; tax; fst ni; sh; np_array eps]),
           {| l_revenue_row := rev;
              l_sga_row := sga;
              l_operating_profit_list := op;
              l_net_income_row := fst ni;
              l_net_income_val := snd ni;
              l_shares_row := sh;
              l_income_share_list := eps |})
  end end end end.




(** The nine fetchers with their concept tag, unit key and label. *)
Definition concept_fetchers : list ((World -> string -> M Row) * (string * string * string)) :=
  [(getRevenue, ("Revenues", "USD", "Revenue"));
   (getCostRevenue, ("CostOfRevenue", "USD", "Cost Of Revenue"));
   (getGrossProfit, ("GrossProfit", "USD", "Gross Profit"));
   (getSGA, ("SellingGeneralAndAdministrativeExpense", "USD", "Selling, General & Admin Costs"));
   (getInterestExpense, ("InterestExpense", "USD", "Interest Expense"));
   (getIncomeExpense, ("OtherNonoperatingIncomeExpense", "USD",
                       "Other Nonoperating Income (Expense), net"));
   (getIncomeTax, ("IncomeTaxesPaidNet", "USD", "Income Taxes Paid, Net"));
   (getTaxRate, ("EffectiveIncomeTaxRateContinuingOperations", "pure", "Effective Tax Rate"));
   (getShares, ("CommonStockSharesOutstanding", "shares", "Common Stock Shares Outstanding"))].

(** ** The properties of the rendered tables *)


(** An Operating Margin row comes with Revenue, Gross Profit, SG&A and
    Operating Profit rows that all carry one submission date. *)
Definition operating_margin_dates (t : Table) : Prop :=
  exists r g s o d,
    find_metric "Revenue" t = Some r /\
    find_metric "Gross Profit" t = Some g /\
    find_metric "Selling, General & Admin Costs" t = Some s /\
    find_metric "Operating Profit" t = Some o /\
    filed_of r = Some d /\ filed_of g = Some d /\
    filed_of s = Some d /\ filed_of o = Some d.




(** The two rows of the comparison table that depend on the spend alone. *)
Definition oci_spend_row (competitor_cloud_spend : Q) : Row :=
  [CStr "OCI Spend (Including Support Rewards)"; dollars (oci_spend competitor_cloud_spend)].

Definition amount_saved_row (competitor_cloud_spend : Q) : Row :=
  [CStr "Amount Saved (Between OCI & Origional Cloud Spend)";
   dollars (tech_saved competitor_cloud_spend)].

(** The label of a row, and the labels of a table in row order. *)
Definition label (r : Row) : option string :=
  match r with CStr l :: _ => Some l | _ => None end.

Definition labels (t : Table) : list (option string) := map label t.

(** The labels of the comparison table as the gates of a run decide them. *)
Definition comparison_labels (v : Locals) : list (option string) :=
  (if len4 (l_sga_row v) then [Some "% of SGA for Original Tech Spend"] else [])
  ++ [Some "OCI Spend (Including Support Rewards)";
      Some "Amount Saved (Between OCI & Origional Cloud Spend)"]
  ++ (if len4 (l_sga_row v) then [Some "SGA when Using OCI"] else [])
  ++ (if aligned_b (l_revenue_row v) (l_sga_row v)
      then [Some "SGA percent of Revenue (with OCI)";
            Some "Change In SGA percent of Revenue"] else [])
  ++ (if len4 (l_operating_profit_list v) then [Some "Operating Profit"] else [])
  ++ (if aligned_b (l_revenue_row v) (l_operating_profit_list v)
      then [Some "Operating Profit Margin (with OCI)";
            Some "Change In Operating Margin"] else [])
  ++ (if len4 (l_net_income_row v) then [Some "Net Income (with OCI)"] else [])
  ++ (if len4 (l_income_share_list v)
      then [Some "Net Income per share - Diluted (with OCI)";
            Some "Net Income per share - Diluted (change)"] else []).






(** ** Sample worlds *)

(** A world that serves the listed documents and is unreachable elsewhere. *)
Definition serve (routes : list (string * Body)) : World :=
  fun url => match lookup url routes with Some b => Served b | None => Unreachable end.

Definition annual (v : Z) (date : string) : Observation :=
  {| val := PyInt v; form := "10-K"; filed := date |}.

Definition quarterly (v : Z) (date : string) : Observation :=
  {| val := PyInt v; form := "10-Q"; filed := date |}.

Definition acme_cik : string := "0001234567".

Definition acme_tickers : string * Body :=
  (tickers_url, CompanyTickers [{| cik_str := 42; ticker := "INIT" |};
                                {| cik_str := 1234567; ticker := "Acme" |}]).

Definition usd (tag : string) (obs : list Observation) : string * Body :=
  (us_gaap_url acme_cik tag, CompanyConcept [("USD", obs)]).

(** Every concept filed on one date. *)
Definition acme : World :=
  serve
    [acme_tickers;
     usd "Revenues" [annual 7000000 "2023-02-01"; quarterly 2100000 "2023-11-01";
                     annual 8000000 "2024-02-01"];
     usd "CostOfRevenue" [annual 3200000 "2024-02-01"];
     usd "GrossProfit" [annual 5000000 "2024-02-01"];
     usd "SellingGeneralAndAdministrativeExpense" [annual 2000000 "2024-02-01"];
     usd "InterestExpense" [annual 100000 "2024-02-01"];
     usd "OtherNonoperatingIncomeExpense" [annual (-50000) "2024-02-01"];
     usd "IncomeTaxesPaidNet" [annual 400000 "2024-02-01"];
     (us_gaap_url acme_cik "EffectiveIncomeTaxRateContinuingOperations",
      CompanyConcept [("pure", [{| val := PyFloat (21 # 100); form := "10-K";
                                   filed := "2024-02-01" |}])]);
     (us_gaap_url acme_cik "CommonStockSharesOutstanding",
      CompanyConcept [("shares", [annual 1000000 "2024-02-01"])])].


(** The same with the cost filed a day earlier. *)
Definition misfiled_co : World :=
  serve [acme_tickers;
         usd "Revenues" [annual 1000 "2024-01-01"];
         usd "CostOfRevenue" [annual 400 "2023-12-31"]].

(** A reported Revenue of zero, aligned with the cost. *)
Definition zero_revenue_co : World :=
  serve [acme_tickers;
         usd "Revenues" [annual 0 "2024-01-01"];
         usd "CostOfRevenue" [annual 400 "2024-01-01"]].

(** A reported SG&A of zero and nothing else. *)
Definition zero_sga_co : World :=
  serve [acme_tickers;
         usd "SellingGeneralAndAdministrativeExpense" [annual 0 "2024-01-01"]].

(** A company without revenue yet: Revenue 0 and SG&A in one filing. *)
Definition pre_revenue_co : World :=
  serve [acme_tickers;
         usd "Revenues" [annual 0 "2024-03-15"];
         usd "SellingGeneralAndAdministrativeExpense" [annual 500000 "2024-03-15"]].


(** Only the ticker map is served. *)
Definition tickers_only : World := serve [acme_tickers].

(** The metrics table of the run on [acme]. *)
Definition acme_metrics : Table :=
  Eval vm_compute in
    match rendered_metrics (main acme "acme" (1000000 # 1) true) with
    | Some t => t
    | None => []
    end.

(** The comparison table of the run on [acme] with a spend of 1,000,000. *)
Definition acme_comparison : Table :=
  Eval vm_compute in
    match rendered_comparison (main acme "acme" (1000000 # 1) true) with
    | Some t => t
    | None => []
    end.

(** ** Further properties of the lookup and of the fetchers *)


(** The number a string of decimal digits denotes. *)
Definition N_of_digits (s : string) : option N :=
  option_map N.of_uint (NilEmpty.uint_of_string s).





(** A row of four cells read from an annual report. *)
Definition annual_fact (L : string) (r : Row) : Prop :=
  exists v d, r = [CStr L; v; CStr "10-K"; CStr d].




(** A row of the rendered metrics table: a known label, the value as a
    string, the form 10-K and a submission date. *)
Definition metric_row (r : Row) : Prop :=
  exists L v d, In L display_labels /\ r = [CStr L; CStr v; CStr "10-K"; CStr d].

(** The rows with the given labels are all in the table and carry one
    submission date. *)
Definition same_date_rows (Ls : list string) (t : Table) : Prop :=
  exists d, Forall (fun L => exists r, find_metric L t = Some r /\ filed_of r = Some d) Ls.


(** A computation that logs nothing: no request, no widget. *)
Definition silent {A} (m : M A) : Prop := fst m = [].

(** ** The monad *)

Lemma bind_ret_l {A B} (a : A) (f : A -> M B) : bind (ret a) f = f a.
Proof. unfold bind, ret; simpl. destruct (f a); reflexivity. Qed.

Lemma bind_raise {A B} (e : Exn) (f : A -> M B) : bind (raise e) f = raise e.
Proof. reflexivity. Qed.

Lemma snd_bind {A B} (m : M A) (f : A -> M B) :
  snd (bind m f) = match snd m with inl e => inl e | inr a => snd (f a) end.
Proof. unfold bind. destruct (snd m); reflexivity. Qed.

Lemma fst_bind {A B} (m : M A) (f : A -> M B) :
  fst (bind m f) = match snd m with inl _ => fst m | inr a => fst m ++ fst (f a) end.
Proof. unfold bind. destruct (snd m); reflexivity. Qed.

Lemma bind_inr {A B} (m : M A) (f : A -> M B) (b : B) :
  snd (bind m f) = inr b -> exists a, snd m = inr a /\ snd (f a) = inr b.
Proof.
  rewrite snd_bind. destruct (snd m) as [e | a]; [discriminate |].
  intros H. exists a. split; [reflexivity | exact H].
Qed.

Lemma snd_catch_ret {A} (m : M A) (d : A) :
  snd (catch m (fun _ => ret d)) = inr (match snd m with inl _ => d | inr a => a end).
Proof. unfold catch. destruct m as [l [e | a]]; reflexivity. Qed.

Lemma tables_of_app l l' : tables_of (l ++ l') = tables_of l ++ tables_of l'.
Proof. unfold tables_of. apply flat_map_app. Qed.

Lemma tables_of_cons e l :
  tables_of (e :: l) = match e with StTable t => t :: tables_of l | _ => tables_of l end.
Proof. destruct e; reflexivity. Qed.


(** ** Indexing rows of four cells *)

Lemma getitem4_1 a b c d : getitem [a; b; c; d] 1 = ret b.
Proof. reflexivity. Qed.

Lemma getitem4_2 a b c d : getitem [a; b; c; d] 2 = ret c.
Proof. reflexivity. Qed.

Lemma getitem4_last a b c d : getitem [a; b; c; d] (-1) = ret d.
Proof. reflexivity. Qed.

Lemma len4_iff (r : Row) : len4 r = true <-> List.length r = 4%nat.
Proof. unfold len4. apply Nat.eqb_eq. Qed.

Lemma len4_inv (r : Row) : len4 r = true -> exists a b c d, r = [a; b; c; d].
Proof.
  intros H. apply len4_iff in H.
  destruct r as [| a [| b [| c [| d [| e r]]]]]; try discriminate.
  now exists a, b, c, d.
Qed.

Lemma len4_np_array r : len4 (np_array r) = len4 r.
Proof. unfold len4, np_array. now rewrite length_map. Qed.

Create HintDb rows.
#[local] Hint Constructors labelled fact_shape : rows.

Create Rewrite HintDb py.
#[local] Hint Rewrite @bind_ret_l @bind_raise getitem4_1 getitem4_2 getitem4_last : py.

(** ** The fetchers *)

Lemma requests_get_json_fst w url : fst (requests_get_json w url) = [HttpGet url].
Proof.
  unfold requests_get_json. rewrite fst_bind. cbn.
  destruct (w url) as [| [ | | ]]; reflexivity.
Qed.

Lemma latest_10k_fst w cik tag unit label :
  fst (latest_10k w cik tag unit label) = [HttpGet (us_gaap_url cik tag)].
Proof.
  unfold latest_10k. rewrite fst_bind, requests_get_json_fst.
  destruct (snd (requests_get_json w (us_gaap_url cik tag))) as [e | b]; [reflexivity |].
  destruct b as [es | units |]; try reflexivity.
  destruct (lookup unit units) as [[| o obs] |]; reflexivity.
Qed.

(** What the [try] body returns in terms of the response. *)
Lemma latest_10k_snd w cik tag unit label :
  snd (latest_10k w cik tag unit label) =
  match w (us_gaap_url cik tag) with
  | Unreachable => inl ConnectionError
  | Served Garbage => inl JSONDecodeError
  | Served (CompanyTickers _) => inl KeyError
  | Served (CompanyConcept units) =>
      match lookup unit units with
      | None | Some [] => inl KeyError
      | Some obs =>
          inr (CStr label ::
               match rev (filter (fun o => String.eqb (form o) "10-K") obs) with
               | [] => []
               | o :: _ => [CNum (val_column obs o); CStr (form o); CStr (filed o)]
               end)
      end
  end.
Proof.
  unfold latest_10k, requests_get_json. rewrite !snd_bind.
  cbn [emit snd].
  destruct (w (us_gaap_url cik tag)) as [| [es | units |]]; try reflexivity.
  cbn [ret snd]. destruct (lookup unit units) as [[| o obs] |]; reflexivity.
Qed.

Lemma latest_10k_inr w cik tag unit label r :
  snd (latest_10k w cik tag unit label) = inr r ->
  r = [CStr label] \/ exists n f d, r = [CStr label; CNum n; CStr f; CStr d].
Proof.
  rewrite latest_10k_snd.
  destruct (w _) as [| [es | units |]]; try discriminate.
  destruct (lookup unit units) as [[| o obs] |]; try discriminate.
  intros [= <-]. destruct (rev _) as [| o' l]; [now left | right; eauto].
Qed.

Lemma fst_catch_ret {A} (m : M A) (d : A) : fst (catch m (fun _ => ret d)) = fst m.
Proof. unfold catch. destruct m as [l [e | a]]; cbn; [apply app_nil_r | reflexivity]. Qed.

Lemma snd_returned (m : M Row) r : snd m = inr r -> returned m = r.
Proof. unfold returned. now intros ->. Qed.

(** A fetcher without a value transform: one request, no exception, and a
    row that is empty, the bare label, or a fact. *)
Lemma plain_fetch w cik tag unit label :
  let m := catch (latest_10k w cik tag unit label) (fun _ => ret []) in
  fst m = [HttpGet (us_gaap_url cik tag)] /\
  snd m = inr (returned m) /\
  labelled label (returned m) /\ fact_shape (returned m).
Proof.
  intros m. subst m. rewrite fst_catch_ret, latest_10k_fst.
  unfold returned. rewrite snd_catch_ret.
  destruct (snd (latest_10k w cik tag unit label)) as [e | r] eqn:E.
  - repeat split; constructor.
  - apply latest_10k_inr in E as [-> | (n & f & d & ->)]; repeat split; constructor.
Qed.

(** A fetcher that rewrites the value cell: the bare label makes [row[1]]
    raise inside the [try], so only the empty row or a fact comes out. *)
Lemma transformed_fetch w cik tag unit label (g : Num -> Cell) :
  let m := catch (row <- latest_10k w cik tag unit label ;;
                  c <- getitem row 1 ;;
                  n <- as_num c ;;
                  setitem1 row (g n))
                 (fun _ => ret []) in
  fst m = [HttpGet (us_gaap_url cik tag)] /\
  snd m = inr (returned m) /\
  returned m = match snd (latest_10k w cik tag unit label) with
               | inr [l; CNum n; f; d] => [l; g n; f; d]
               | _ => []
               end.
Proof.
  intros m. subst m. unfold returned.
  rewrite fst_catch_ret, snd_catch_ret, fst_bind, snd_bind, latest_10k_fst.
  destruct (snd (latest_10k w cik tag unit label)) as [e | r] eqn:E.
  - repeat split.
  - apply latest_10k_inr in E as [-> | (n & f & d & ->)]; repeat split.
Qed.

Lemma getRevenue_ok w cik :
  fst (getRevenue w cik) = [HttpGet (us_gaap_url cik "Revenues")] /\
  snd (getRevenue w cik) = inr (returned (getRevenue w cik)) /\
  labelled "Revenue" (returned (getRevenue w cik)) /\
  fact_shape (returned (getRevenue w cik)).
Proof. apply plain_fetch. Qed.

Lemma getCostRevenue_ok w cik :
  fst (getCostRevenue w cik) = [HttpGet (us_gaap_url cik "CostOfRevenue")] /\
  snd (getCostRevenue w cik) = inr (returned (getCostRevenue w cik)) /\
  labelled "Cost Of Revenue" (returned (getCostRevenue w cik)) /\
  fact_shape (returned (getCostRevenue w cik)).
Proof. apply plain_fetch. Qed.

Lemma getGrossProfit_ok w cik :
  fst (getGrossProfit w cik) = [HttpGet (us_gaap_url cik "GrossProfit")] /\
  snd (getGrossProfit w cik) = inr (returned (getGrossProfit w cik)) /\
  labelled "Gross Profit" (returned (getGrossProfit w cik)) /\
  fact_shape (returned (getGrossProfit w cik)).
Proof. apply plain_fetch. Qed.

Lemma getSGA_ok w cik :
  fst (getSGA w cik) = [HttpGet (us_gaap_url cik "SellingGeneralAndAdministrativeExpense")] /\
  snd (getSGA w cik) = inr (returned (getSGA w cik)) /\
  labelled "Selling, General & Admin Costs" (returned (getSGA w cik)) /\
  fact_shape (returned (getSGA w cik)).
Proof. apply plain_fetch. Qed.

Lemma getInterestExpense_ok w cik :
  fst (getInterestExpense w cik) = [HttpGet (us_gaap_url cik "InterestExpense")] /\
  snd (getInterestExpense w cik) = inr (returned (getInterestExpense w cik)) /\
  labelled "Interest Expense" (returned (getInterestExpense w cik)) /\
  fact_shape (returned (getInterestExpense w cik)).
Proof. apply plain_fetch. Qed.

Lemma getIncomeTax_ok w cik :
  fst (getIncomeTax w cik) = [HttpGet (us_gaap_url cik "IncomeTaxesPaidNet")] /\
  snd (getIncomeTax w cik) = inr (returned (getIncomeTax w cik)) /\
  labelled "Income Taxes Paid, Net" (returned (getIncomeTax w cik)) /\
  fact_shape (returned (getIncomeTax w cik)).
Proof. apply plain_fetch. Qed.

Lemma getShares_ok w cik :
  fst (getShares w cik) = [HttpGet (us_gaap_url cik "CommonStockSharesOutstanding")] /\
  snd (getShares w cik) = inr (returned (getShares w cik)) /\
  labelled "Common Stock Shares Outstanding" (returned (getShares w cik)) /\
  fact_shape (returned (getShares w cik)).
Proof. apply plain_fetch. Qed.

Lemma getIncomeExpense_ok w cik :
  fst (getIncomeExpense w cik) = [HttpGet (us_gaap_url cik "OtherNonoperatingIncomeExpense")] /\
  snd (getIncomeExpense w cik) = inr (returned (getIncomeExpense w cik)) /\
  labelled "Other Nonoperating Income (Expense), net" (returned (getIncomeExpense w cik)) /\
  fact_shape (returned (getIncomeExpense w cik)).
Proof.
  unfold getIncomeExpense.
  destruct (transformed_fetch w cik "OtherNonoperatingIncomeExpense" "USD"
              "Other Nonoperating Income (Expense), net" (fun n => CNum (py_abs n)))
    as (Hf & Hs & Hr).
  split; [exact Hf | split; [exact Hs |]].
  rewrite Hr.
  destruct (snd (latest_10k _ _ _ _ _)) as [e | r] eqn:E; [split; constructor |].
  apply latest_10k_inr in E as [-> | (n & f & d & ->)]; split; constructor.
Qed.

Lemma getTaxRate_ok w cik :
  fst (getTaxRate w cik) =
    [HttpGet (us_gaap_url cik "EffectiveIncomeTaxRateContinuingOperations")] /\
  snd (getTaxRate w cik) = inr (returned (getTaxRate w cik)) /\
  labelled "Effective Tax Rate" (returned (getTaxRate w cik)).
Proof.
  unfold getTaxRate.
  destruct (transformed_fetch w cik "EffectiveIncomeTaxRateContinuingOperations" "pure"
              "Effective Tax Rate" (fun n => CStr (py_str (py_mul n (PyInt 100)) ++ "%")))
    as (Hf & Hs & Hr).
  split; [exact Hf | split; [exact Hs |]].
  rewrite Hr.
  destruct (snd (latest_10k _ _ _ _ _)) as [e | r] eqn:E; [constructor |].
  apply latest_10k_inr in E as [-> | (n & f & d & ->)]; constructor.
Qed.

(** ** [float] reads back what [str] printed *)

Lemma split_dot_uint d :
  split_dot (NilEmpty.string_of_uint d) = (NilEmpty.string_of_uint d, None).
Proof. induction d; simpl; rewrite ?IHd; reflexivity. Qed.

Lemma split_dot_str_int z : split_dot (str_int z) = (str_int z, None).
Proof.
  unfold str_int.
  assert (U : forall d, split_dot (NilZero.string_of_uint d) = (NilZero.string_of_uint d, None)).
  { intros d. destruct d; try reflexivity; apply (split_dot_uint (_ _)). }
  destruct (Z.to_int z) as [d | d]; simpl NilZero.string_of_int.
  - apply U.
  - cbn [split_dot]. change (Ascii.eqb "-" ".") with false. cbv iota. now rewrite U.
Qed.

Lemma parse_float_str_int z : parse_float (str_int z) = Some (inject_Z z).
Proof.
  unfold parse_float. rewrite split_dot_str_int. unfold str_int.
  rewrite NilZero.isi.
  - now rewrite DecimalZ.of_to.
  - destruct z; simpl; try discriminate.
    intros [= H]. now apply Unsigned.to_uint_nonnil in H.
  - destruct z; simpl; try discriminate.
    intros [= H]. now apply Unsigned.to_uint_nonnil in H.
Qed.

(** ** The derivation steps on shaped rows *)

Lemma aligned_spec a b : aligned a b = ret (aligned_b a b).
Proof.
  unfold aligned, aligned_b.
  destruct (len4 a) eqn:Ha; [| reflexivity].
  destruct (len4 b) eqn:Hb; [| reflexivity].
  apply len4_inv in Ha as (a0 & a1 & a2 & a3 & ->).
  apply len4_inv in Hb as (b0 & b1 & b2 & b3 & ->).
  cbn [andb]. autorewrite with py. reflexivity.
Qed.

Lemma percent_of_revenue_spec L rev x :
  fact_shape rev -> fact_shape x ->
  percent_of_revenue L rev x =
  if aligned_b rev x
  then if is_zero (row_val rev) then raise ZeroDivisionError else ret (percent_row L rev x)
  else ret [].
Proof.
  intros Hr Hx. unfold percent_of_revenue. rewrite aligned_spec, bind_ret_l.
  destruct (aligned_b rev x) eqn:E; [| reflexivity].
  destruct Hr; try discriminate E. destruct Hx; try discriminate E.
  autorewrite with py. cbn [as_num]. autorewrite with py. cbn [as_num]. autorewrite with py.
  unfold truediv. cbn [row_val].
  destruct (is_zero n); autorewrite with py; reflexivity.
Qed.

Lemma operating_profit_list_spec profit_row sga_row :
  fact_shape profit_row -> fact_shape sga_row ->
  operating_profit_list profit_row sga_row = ret (operating_profit_of profit_row sga_row).
Proof.
  intros Hp Hs. unfold operating_profit_list, operating_profit_of.
  rewrite aligned_spec, bind_ret_l.
  destruct (aligned_b profit_row sga_row) eqn:E; [| reflexivity].
  destruct Hp; try discriminate E. destruct Hs; try discriminate E.
  autorewrite with py. cbn [as_num]. autorewrite with py. cbn [as_num]. autorewrite with py.
  reflexivity.
Qed.

Lemma operating_profit_of_shape profit_row sga_row :
  fact_shape profit_row -> fact_shape sga_row ->
  fact_shape (operating_profit_of profit_row sga_row) /\
  labelled "Operating Profit" (operating_profit_of profit_row sga_row).
Proof.
  intros Hp Hs. unfold operating_profit_of.
  destruct (aligned_b profit_row sga_row) eqn:E; [| split; constructor].
  destruct Hp; try discriminate E. split; constructor.
Qed.

Lemma net_income_row_spec o i e t :
  fact_shape o -> fact_shape i -> fact_shape e -> fact_shape t ->
  net_income_row o i e t = ret (net_income_of o i e t).
Proof.
  intros Ho Hi He Ht. unfold net_income_row, net_income_of, aligned4_b.
  destruct (len4 o && len4 i && len4 e && len4 t) eqn:L; [| reflexivity].
  destruct Ho; try discriminate L. destruct Hi; try discriminate L.
  destruct He; try discriminate L. destruct Ht; try discriminate L.
  autorewrite with py. cbn [andb row_filed nth].
  destruct (cell_eqb _ _ && cell_eqb _ _ && cell_eqb _ _); [| reflexivity].
  cbn [py_float]. autorewrite with py. cbn [py_float]. autorewrite with py.
  cbn [py_float]. autorewrite with py. cbn [py_float]. autorewrite with py.
  reflexivity.
Qed.

Lemma income_share_list_spec sh o i e t :
  fact_shape sh -> fact_shape o ->
  income_share_list sh (fst (net_income_of o i e t)) =
  if aligned_b sh (fst (net_income_of o i e t))
  then if is_zero (row_val sh) then raise ZeroDivisionError
       else ret (income_share_of sh (net_income_val_of o i e t))
  else ret [].
Proof.
  intros Hs Ho. unfold income_share_list. rewrite aligned_spec, bind_ret_l.
  destruct (aligned_b sh (fst (net_income_of o i e t))) eqn:E; [| reflexivity].
  unfold net_income_of in *.
  destruct (aligned4_b o i e t);
    [| cbn [fst] in E; unfold aligned_b in E; change (len4 []) with false in E;
       rewrite andb_false_r in E; discriminate E].
  cbn [fst] in *. destruct Hs; try discriminate E.
  autorewrite with py. cbn [py_float]. rewrite parse_float_str_int.
  autorewrite with py. cbn [py_float]. autorewrite with py.
  unfold truediv. change (is_zero (PyFloat (to_float n))) with (is_zero n).
  cbn [row_val]. destruct (is_zero n); autorewrite with py; reflexivity.
Qed.

(** ** Appending guarded rows *)

Lemma add_if4_filter (l : list Row) (r : Row) :
  add_if4 (filter len4 l) r = filter len4 (l ++ [r]).
Proof.
  unfold add_if4, append_row. rewrite filter_app. cbn [filter].
  destruct (len4 r); [reflexivity | now rewrite app_nil_r].
Qed.

(** What [display_table] returns, as a function of the rows read. *)
Lemma display_table_snd w cik :
  snd (display_table w cik) =
  metrics_of (returned (getRevenue w cik)) (returned (getCostRevenue w cik))
    (returned (getGrossProfit w cik)) (returned (getSGA w cik))
    (returned (getInterestExpense w cik)) (returned (getIncomeExpense w cik))
    (returned (getIncomeTax w cik)) (returned (getTaxRate w cik))
    (returned (getShares w cik)).
Proof.
  destruct (getRevenue_ok w cik) as (_ & R1 & _ & S1).
  destruct (getCostRevenue_ok w cik) as (_ & R2 & _ & S2).
  destruct (getGrossProfit_ok w cik) as (_ & R3 & _ & S3).
  destruct (getSGA_ok w cik) as (_ & R4 & _ & S4).
  destruct (getInterestExpense_ok w cik) as (_ & R5 & _ & S5).
  destruct (getIncomeExpense_ok w cik) as (_ & R6 & _ & S6).
  destruct (getIncomeTax_ok w cik) as (_ & R7 & _ & S7).
  destruct (getTaxRate_ok w cik) as (_ & R8 & _).
  destruct (getShares_ok w cik) as (_ & R9 & _ & S9).
  unfold display_table, metrics_of.
  change (@nil Row) with (filter len4 []) at 1.
  rewrite snd_bind, R1. cbv beta iota zeta. rewrite add_if4_filter.
  rewrite snd_bind, R2. cbv beta iota zeta. rewrite add_if4_filter.
  rewrite snd_bind.
  destruct (snd (gross_margin_list _ _)) as [x | gm]; [reflexivity |].
  rewrite add_if4_filter.
  rewrite snd_bind, R3. cbv beta iota zeta. rewrite add_if4_filter.
  rewrite snd_bind, R4. cbv beta iota zeta. rewrite add_if4_filter.
  rewrite snd_bind.
  destruct (snd (sga_margin_list _ _)) as [x | sm]; [reflexivity |].
  rewrite add_if4_filter.
  rewrite snd_bind, operating_profit_list_spec by assumption.
  cbn [snd ret]. rewrite add_if4_filter.
  rewrite snd_bind.
  destruct (snd (operating_profit_margin_list _ _)) as [x | om]; [reflexivity |].
  rewrite add_if4_filter.
  rewrite snd_bind, R5. cbv beta iota zeta. rewrite add_if4_filter.
  rewrite snd_bind, R6. cbv beta iota zeta. rewrite add_if4_filter.
  rewrite snd_bind, R7. cbv beta iota zeta. rewrite add_if4_filter.
  rewrite snd_bind, R8. cbv beta iota zeta. rewrite add_if4_filter.
  rewrite snd_bind, net_income_row_spec;
    try assumption; try (apply operating_profit_of_shape; assumption).
  cbn [snd ret]. rewrite add_if4_filter.
  rewrite snd_bind, R9. cbv beta iota zeta. rewrite add_if4_filter.
  rewrite snd_bind.
  destruct (snd (income_share_list _ _)) as [x | eps]; [reflexivity |].
  rewrite add_if4_filter. reflexivity.
Qed.

(** ** Computations that render nothing *)

Lemma quiet_ret {A} (a : A) : quiet (ret a).
Proof. reflexivity. Qed.

Lemma quiet_raise {A} (e : Exn) : quiet (@raise A e).
Proof. reflexivity. Qed.

Lemma quiet_bind {A B} (m : M A) (f : A -> M B) :
  quiet m -> (forall a, quiet (f a)) -> quiet (bind m f).
Proof.
  unfold quiet. intros Hm Hf. rewrite fst_bind.
  destruct (snd m); [exact Hm |]. now rewrite tables_of_app, Hm, Hf.
Qed.

Lemma quiet_getitem r i : quiet (getitem r i).
Proof.
  unfold getitem. destruct (_ && _)%bool; [| apply quiet_raise].
  destruct (nth_error _ _); [apply quiet_ret | apply quiet_raise].
Qed.

Lemma quiet_as_num c : quiet (as_num c).
Proof. destruct c; [apply quiet_raise | apply quiet_ret]. Qed.

Lemma quiet_py_float c : quiet (py_float c).
Proof.
  destruct c; cbn; [| apply quiet_ret].
  destruct (parse_float s); [apply quiet_ret | apply quiet_raise].
Qed.

Lemma quiet_truediv a b : quiet (truediv a b).
Proof. unfold truediv. destruct (is_zero b); [apply quiet_raise | apply quiet_ret]. Qed.

Lemma quiet_local {A} (v : option A) : quiet (local v).
Proof. destruct v; [apply quiet_ret | apply quiet_raise]. Qed.

Lemma quiet_log {A} (m : M A) u : fst m = [HttpGet u] -> quiet m.
Proof. unfold quiet. now intros ->. Qed.

Ltac quiet_step :=
  lazymatch goal with
  | |- quiet (ret _) => apply quiet_ret
  | |- quiet (raise _) => apply quiet_raise
  | |- quiet (getitem _ _) => apply quiet_getitem
  | |- quiet (as_num _) => apply quiet_as_num
  | |- quiet (py_float _) => apply quiet_py_float
  | |- quiet (truediv _ _) => apply quiet_truediv
  | |- quiet (local _) => apply quiet_local
  | |- quiet (bind _ _) => apply quiet_bind; [| intros ?]
  | |- quiet (if ?b then _ else _) => destruct b
  | |- quiet (let _ := _ in _) => cbv zeta
  end.

Ltac quiet := repeat quiet_step.

Lemma quiet_aligned a b : quiet (aligned a b).
Proof. unfold aligned. quiet. Qed.

Lemma quiet_percent_of_revenue L a b : quiet (percent_of_revenue L a b).
Proof. unfold percent_of_revenue. apply quiet_bind; [apply quiet_aligned | intros ?]. quiet. Qed.

Lemma quiet_operating_profit_list a b : quiet (operating_profit_list a b).
Proof. unfold operating_profit_list. apply quiet_bind; [apply quiet_aligned | intros ?]. quiet. Qed.

Lemma quiet_net_income_row a b c d : quiet (net_income_row a b c d).
Proof. unfold net_income_row. quiet. Qed.

Lemma quiet_income_share_list a b : quiet (income_share_list a b).
Proof. unfold income_share_list. apply quiet_bind; [apply quiet_aligned | intros ?]. quiet. Qed.

Ltac quiet_call :=
  lazymatch goal with
  | |- quiet (getRevenue _ _) => eapply quiet_log; apply getRevenue_ok
  | |- quiet (getCostRevenue _ _) => eapply quiet_log; apply getCostRevenue_ok
  | |- quiet (getGrossProfit _ _) => eapply quiet_log; apply getGrossProfit_ok
  | |- quiet (getSGA _ _) => eapply quiet_log; apply getSGA_ok
  | |- quiet (getInterestExpense _ _) => eapply quiet_log; apply getInterestExpense_ok
  | |- quiet (getIncomeExpense _ _) => eapply quiet_log; apply getIncomeExpense_ok
  | |- quiet (getIncomeTax _ _) => eapply quiet_log; apply getIncomeTax_ok
  | |- quiet (getTaxRate _ _) => eapply quiet_log; apply getTaxRate_ok
  | |- quiet (getShares _ _) => eapply quiet_log; apply getShares_ok
  | |- quiet (gross_margin_list _ _) => apply quiet_percent_of_revenue
  | |- quiet (sga_margin_list _ _) => apply quiet_percent_of_revenue
  | |- quiet (operating_profit_margin_list _ _) => apply quiet_percent_of_revenue
  | |- quiet (operating_profit_list _ _) => apply quiet_operating_profit_list
  | |- quiet (net_income_row _ _ _ _) => apply quiet_net_income_row
  | |- quiet (income_share_list _ _) => apply quiet_income_share_list
  | |- quiet (aligned _ _) => apply quiet_aligned
  | |- quiet (ret _) => apply quiet_ret
  | |- quiet (bind _ _) => apply quiet_bind; [| intros ?; cbv zeta]
  end.

Lemma quiet_display_table w cik : quiet (display_table w cik).
Proof. unfold display_table. repeat quiet_call. Qed.

Lemma quiet_div_by_val x r : quiet (div_by_val x r).
Proof. unfold div_by_val. quiet. Qed.

Lemma quiet_spend_table v s : quiet (spend_table v s).
Proof.
  unfold spend_table. cbv zeta.
  repeat lazymatch goal with
    | |- quiet (aligned _ _) => apply quiet_aligned
    | |- quiet (div_by_val _ _) => apply quiet_div_by_val
    | |- _ => quiet_step
    end.
Qed.

(** ** getCIK and the two branches of main *)

Lemma getCIK_fst w t : fst (getCIK w t) = [HttpGet tickers_url].
Proof.
  unfold getCIK. rewrite fst_bind, requests_get_json_fst.
  destruct (snd (requests_get_json w _)) as [e | b]; [reflexivity |].
  destruct b as [[| e es] | units |]; reflexivity.
Qed.

Lemma getCIK_snd w t :
  snd (getCIK w t) =
  match w tickers_url with
  | Unreachable => inl ConnectionError
  | Served Garbage => inl JSONDecodeError
  | Served (CompanyTickers (e :: es)) =>
      inr (match filter (fun x => String.eqb (upper (ticker x)) (upper t)) (e :: es) with
           | [] => None
           | x :: _ => Some (zfill 10 (str_N (cik_str x)))
           end)
  | Served _ => inl KeyError
  end.
Proof.
  unfold getCIK, requests_get_json. rewrite !snd_bind. cbn [emit snd].
  change "https://www.sec.gov/files/company_tickers.json" with tickers_url.
  destruct (w tickers_url) as [| [[| e es] | units |]]; try reflexivity.
  cbn [ret snd]. destruct (filter _ _); reflexivity.
Qed.

Lemma zfill_nonempty n s : nonempty (zfill (S n) s) = true.
Proof.
  unfold zfill. destruct s as [| c s]; [reflexivity |].
  destruct (S n - String.length (String c s))%nat; reflexivity.
Qed.

Lemma getCIK_some_truthy w t c : snd (getCIK w t) = inr (Some c) -> truthy (Some c) = true.
Proof.
  rewrite getCIK_snd.
  destruct (w tickers_url) as [| [[| e es] | units |]]; try discriminate.
  destruct (filter _ _); [discriminate |].
  intros [= <-]. apply zfill_nonempty.
Qed.

(** The resolved branch: the two tables and the outcome of [main] are
    those of [display_table] and [spend_table]. *)
Lemma main_found w user_input spend c :
  nonempty (upper (strip user_input)) = true ->
  snd (getCIK w (upper (strip user_input))) = inr (Some c) ->
  tables_of (fst (main w user_input spend true)) =
    match snd (display_table w c) with
    | inl _ => []
    | inr r => fst r :: match snd (spend_table (snd r) spend) with
                        | inl _ => []
                        | inr st => [st]
                        end
    end /\
  snd (main w user_input spend true) =
    match snd (display_table w c) with
    | inl e => inl e
    | inr r => match snd (spend_table (snd r) spend) with
               | inl e => inl e
               | inr _ => inr tt
               end
    end.
Proof.
  intros Hne Hc. pose proof (getCIK_some_truthy _ _ _ Hc) as Ht.
  pose proof (getCIK_fst w (upper (strip user_input))) as Hf.
  pose proof (quiet_display_table w c) as Qd. unfold quiet in Qd.
  unfold main. rewrite Hne.
  destruct (getCIK w (upper (strip user_input))) as [l [e | o]]; cbn [fst snd] in *;
    [discriminate |].
  injection Hc as ->. subst l.
  destruct (display_table w c) as [ld [e | r]] eqn:D; cbn [fst snd] in *.
  - cbn [bind catch emit ret fst snd app]. rewrite Ht.
    cbn [bind catch emit ret fst snd app]. rewrite D.
    cbn [bind catch emit ret fst snd app tables_of flat_map].
    split; [exact Qd | reflexivity].
  - pose proof (quiet_spend_table (snd r) spend) as Qs. unfold quiet in Qs.
    cbn [bind catch emit ret fst snd app]. rewrite Ht.
    cbn [bind catch emit ret fst snd app]. rewrite D.
    cbn [bind catch emit ret fst snd app].
    destruct (spend_table (snd r) spend) as [ls [e | st]]; cbn [fst snd] in *.
    + cbn [bind emit fst snd app].
      rewrite !tables_of_cons, tables_of_app, tables_of_cons, Qd, Qs. split; reflexivity.
    + cbn [bind emit fst snd app].
      rewrite !tables_of_cons, tables_of_app, tables_of_cons, tables_of_app, Qd, Qs.
      split; reflexivity.
Qed.

(** The unresolved branch: the lookup raised or found nothing.  The only
    request is the one for the ticker map, and nothing is rendered. *)
Lemma main_unresolved w user_input spend :
  nonempty (upper (strip user_input)) = true ->
  (forall c, snd (getCIK w (upper (strip user_input))) <> inr (Some c)) ->
  exists errs,
    (errs = [] \/ exists e, errs = [StError "Error looking up CIK: " e]) /\
    main w user_input spend true =
      ([StTitle "SEC Data Retrieval";
        StWrite "Enter a stock ticker and submit to fetch its CIK, displayed below in a read-only text box.";
        HttpGet tickers_url] ++ errs ++
       [StDivider; StSubheader "Results";
        StWarning "Ticker not found. Please verify the symbol.";
        StTextInput "CIK" "Not found"], inr tt).
Proof.
  intros Hne Hc. pose proof (getCIK_fst w (upper (strip user_input))) as Hf.
  unfold main. rewrite Hne.
  destruct (getCIK w (upper (strip user_input))) as [l [e | [c |]]]; cbn [fst snd] in *;
    subst l.
  - exists [StError "Error looking up CIK: " e]. split; [right; now exists e | reflexivity].
  - now destruct (Hc c).
  - exists []. split; [now left | reflexivity].
Qed.

(** Whatever [main] renders comes from the resolved branch. *)
Lemma main_tables w user_input spend submitted :
  tables_of (fst (main w user_input spend submitted)) = [] \/
  exists c,
    snd (getCIK w (upper (strip user_input))) = inr (Some c) /\
    tables_of (fst (main w user_input spend submitted)) =
      match snd (display_table w c) with
      | inl _ => []
      | inr r => fst r :: match snd (spend_table (snd r) spend) with
                          | inl _ => []
                          | inr st => [st]
                          end
      end.
Proof.
  destruct submitted; [| now left].
  destruct (nonempty (upper (strip user_input))) eqn:Hne.
  - destruct (snd (getCIK w (upper (strip user_input)))) as [e | [c |]] eqn:G.
    + left. destruct (main_unresolved w user_input spend Hne) as (errs & He & ->).
      * intros c. now rewrite G.
      * destruct He as [-> | [x ->]]; reflexivity.
    + right. exists c. split; [reflexivity |]. now apply main_found.
    + left. destruct (main_unresolved w user_input spend Hne) as (errs & He & ->).
      * intros c. now rewrite G.
      * destruct He as [-> | [x ->]]; reflexivity.
  - left. unfold main. rewrite Hne. reflexivity.
Qed.

Lemma rendered_metrics_inv w user_input spend submitted t :
  rendered_metrics (main w user_input spend submitted) = Some t ->
  exists c v,
    snd (getCIK w (upper (strip user_input))) = inr (Some c) /\
    snd (display_table w c) = inr (t, v).
Proof.
  unfold rendered_metrics.
  destruct (main_tables w user_input spend submitted) as [-> | (c & Hc & ->)];
    [discriminate |].
  destruct (snd (display_table w c)) as [e | [t' v]] eqn:D; [discriminate |].
  cbn. intros [= <-]. exists c, v. split; [exact Hc | exact D].
Qed.

Lemma rendered_comparison_inv w user_input spend submitted st :
  rendered_comparison (main w user_input spend submitted) = Some st ->
  exists c t v,
    snd (getCIK w (upper (strip user_input))) = inr (Some c) /\
    snd (display_table w c) = inr (t, v) /\
    snd (spend_table v spend) = inr st.
Proof.
  unfold rendered_comparison.
  destruct (main_tables w user_input spend submitted) as [-> | (c & Hc & ->)];
    [discriminate |].
  destruct (snd (display_table w c)) as [e | [t' v]] eqn:D; [discriminate |].
  cbn [fst snd]. destruct (snd (spend_table v spend)) as [e | st'] eqn:S; [discriminate |].
  cbn. intros [= <-]. exists c, t', v. repeat split; assumption.
Qed.

(** ** Looking a metric up in a table of labelled rows *)

Lemma labelled_label_is L L' r :
  labelled L r -> len4 r = true -> label_is L' r = String.eqb L L'.
Proof. destruct 1; try discriminate; reflexivity. Qed.

Lemma labelled_np_array L r : labelled L r -> labelled L (np_array r).
Proof. destruct 1; constructor. Qed.

Lemma find_metric_absent Ls rows L :
  Forall2 labelled Ls rows -> ~ In L Ls -> find_metric L (filter len4 rows) = None.
Proof.
  unfold find_metric. induction 1 as [| L0 r0 Ls rows H0 HF IH]; [reflexivity |].
  intros Hn. cbn [filter]. destruct (len4 r0) eqn:E.
  - cbn [find]. rewrite (labelled_label_is _ L _ H0 E).
    destruct (String.eqb_spec L0 L) as [-> | _]; [destruct Hn; now left |].
    apply IH. intros Hin. apply Hn. now right.
  - apply IH. intros Hin. apply Hn. now right.
Qed.

(** In a table built from rows with pairwise distinct labels, a label is
    found exactly when the row of its slot has four cells. *)
Lemma find_metric_slot Ls rows :
  Forall2 labelled Ls rows -> NoDup Ls ->
  forall i L r, nth_error Ls i = Some L -> nth_error rows i = Some r ->
  find_metric L (filter len4 rows) = if len4 r then Some r else None.
Proof.
  induction 1 as [| L0 r0 Ls rows H0 HF IH]; intros ND i L r HL Hr.
  - destruct i; discriminate.
  - inversion ND as [| ? ? Hnot ND']; subst.
    destruct i as [| i]; cbn [nth_error] in HL, Hr.
    + injection HL as <-. injection Hr as <-.
      cbn [filter]. destruct (len4 r0) eqn:E.
      * unfold find_metric. cbn [find].
        now rewrite (labelled_label_is _ L0 _ H0 E), String.eqb_refl.
      * now apply find_metric_absent with (Ls := Ls).
    + cbn [filter]. destruct (len4 r0) eqn:E; [| now apply (IH ND' i)].
      unfold find_metric. cbn [find]. rewrite (labelled_label_is _ L _ H0 E).
      destruct (String.eqb_spec L0 L) as [-> | _]; [| now apply (IH ND' i)].
      destruct Hnot. eapply nth_error_In, HL.
Qed.

Lemma label_is_value_str L r : label_is L (value_str r) = label_is L r.
Proof. destruct r as [| a [| b r]]; reflexivity. Qed.

Lemma find_metric_astype L t :
  find_metric L (value_astype_str t) = option_map value_str (find_metric L t).
Proof.
  unfold find_metric, value_astype_str. induction t as [| r t IH]; [reflexivity |].
  cbn [map find]. rewrite label_is_value_str. now destruct (label_is L r).
Qed.

Lemma filed_of_value_str r : filed_of (value_str r) = filed_of r.
Proof. destruct r as [| a [| b r]]; reflexivity. Qed.

Lemma display_labels_nodup : NoDup display_labels.
Proof.
  unfold display_labels.
  repeat (constructor; [cbn [In]; intuition discriminate |]). constructor.
Qed.

(** ** The rows of the metrics table *)

Lemma percent_of_revenue_inr L rev x r :
  fact_shape rev -> fact_shape x ->
  snd (percent_of_revenue L rev x) = inr r ->
  (aligned_b rev x = true /\ is_zero (row_val rev) = false /\ r = percent_row L rev x) \/
  (aligned_b rev x = false /\ r = []).
Proof.
  intros Hr Hx. rewrite percent_of_revenue_spec by assumption.
  destruct (aligned_b rev x); [| intros [= <-]; now right].
  destruct (is_zero (row_val rev)); [discriminate |].
  intros [= <-]. now left.
Qed.

Lemma percent_of_revenue_labelled L rev x r :
  fact_shape rev -> fact_shape x ->
  snd (percent_of_revenue L rev x) = inr r -> labelled L r.
Proof.
  intros Hr Hx H.
  apply percent_of_revenue_inr in H as [(A & _ & ->) | (_ & ->)]; try assumption;
    [| constructor].
  destruct Hr; try discriminate A. constructor.
Qed.

Lemma net_income_of_labelled o i e t :
  fact_shape o -> labelled "Net Income" (fst (net_income_of o i e t)).
Proof.
  intros Ho. unfold net_income_of. destruct (aligned4_b o i e t) eqn:A; [| constructor].
  destruct Ho; try discriminate A. constructor.
Qed.

Lemma income_share_list_inr sh o i e t r :
  fact_shape sh -> fact_shape o ->
  snd (income_share_list sh (fst (net_income_of o i e t))) = inr r ->
  (aligned_b sh (fst (net_income_of o i e t)) = true /\ is_zero (row_val sh) = false /\
   r = income_share_of sh (net_income_val_of o i e t)) \/
  (aligned_b sh (fst (net_income_of o i e t)) = false /\ r = []).
Proof.
  intros Hs Ho. rewrite income_share_list_spec by assumption.
  destruct (aligned_b sh _); [| intros [= <-]; now right].
  destruct (is_zero (row_val sh)); [discriminate |].
  intros [= <-]. now left.
Qed.

Lemma income_share_list_labelled sh o i e t r :
  fact_shape sh -> fact_shape o ->
  snd (income_share_list sh (fst (net_income_of o i e t))) = inr r ->
  labelled "Net Income per share - Diluted" r.
Proof.
  intros Hs Ho H.
  apply income_share_list_inr in H as [(A & _ & ->) | (_ & ->)]; try assumption;
    [| constructor].
  destruct Hs; try discriminate A. constructor.
Qed.

Section Metrics.

Variables rev cost gp sga ie oi it tax sh : Row.
Hypothesis Lrev : labelled "Revenue" rev.
Hypothesis Lcost : labelled "Cost Of Revenue" cost.
Hypothesis Lgp : labelled "Gross Profit" gp.
Hypothesis Lsga : labelled "Selling, General & Admin Costs" sga.
Hypothesis Lie : labelled "Interest Expense" ie.
Hypothesis Loi : labelled "Other Nonoperating Income (Expense), net" oi.
Hypothesis Lit : labelled "Income Taxes Paid, Net" it.
Hypothesis Ltax : labelled "Effective Tax Rate" tax.
Hypothesis Lsh : labelled "Common Stock Shares Outstanding" sh.
Hypothesis Frev : fact_shape rev.
Hypothesis Fcost : fact_shape cost.
Hypothesis Fgp : fact_shape gp.
Hypothesis Fsga : fact_shape sga.
Hypothesis Fie : fact_shape ie.
Hypothesis Foi : fact_shape oi.
Hypothesis Fit : fact_shape it.
Hypothesis Fsh : fact_shape sh.

(** A run of the metrics part that returns went through the four
    steps that can raise, and its table is the guarded rows in order. *)
Lemma metrics_of_inv t v :
  metrics_of rev cost gp sga ie oi it tax sh = inr (t, v) ->
  exists gm sm om eps,
    snd (gross_margin_list rev cost) = inr gm /\
    snd (sga_margin_list rev sga) = inr sm /\
    snd (operating_profit_margin_list rev (operating_profit_of gp sga)) = inr om /\
    snd (income_share_list sh (fst (net_income_of (operating_profit_of gp sga) ie oi it))) = inr eps /\
    t = value_astype_str
          (filter len4
             [rev; cost; np_array gm; gp; sga; np_array sm; np_array (operating_profit_of gp sga);
              np_array om; ie; oi; it; tax; fst (net_income_of (operating_profit_of gp sga) ie oi it); sh; np_array eps]) /\
    v = {| l_revenue_row := rev;
           l_sga_row := sga;
           l_operating_profit_list := operating_profit_of gp sga;
           l_net_income_row := fst (net_income_of (operating_profit_of gp sga) ie oi it);
           l_net_income_val := snd (net_income_of (operating_profit_of gp sga) ie oi it);
           l_shares_row := sh;
           l_income_share_list := eps |}.
Proof.
  unfold metrics_of.
  destruct (snd (gross_margin_list rev cost)) as [x | gm]; [discriminate |].
  destruct (snd (sga_margin_list rev sga)) as [x | sm]; [discriminate |].
  destruct (snd (operating_profit_margin_list rev (operating_profit_of gp sga))) as [x | om]; [discriminate |].
  destruct (snd (income_share_list sh (fst (net_income_of (operating_profit_of gp sga) ie oi it)))) as [x | eps]; [discriminate |].
  intros E. exists gm, sm, om, eps.
  split; [reflexivity |]. split; [reflexivity |].
  split; [reflexivity |]. split; [reflexivity |].
  split; [exact (f_equal fst (eq_sym (f_equal (fun x => match x with
                                                    | inr p => p
                                                    | inl _ => (t, v)
                                                    end) E)))
         | exact (f_equal snd (eq_sym (f_equal (fun x => match x with
                                                    | inr p => p
                                                    | inl _ => (t, v)
                                                    end) E)))].
Qed.

Lemma metrics_rows_labelled gm sm om eps :
  snd (gross_margin_list rev cost) = inr gm ->
  snd (sga_margin_list rev sga) = inr sm ->
  snd (operating_profit_margin_list rev (operating_profit_of gp sga)) = inr om ->
  snd (income_share_list sh (fst (net_income_of (operating_profit_of gp sga) ie oi it))) = inr eps ->
  Forall2 labelled display_labels
    [rev; cost; np_array gm; gp; sga; np_array sm; np_array (operating_profit_of gp sga);
     np_array om; ie; oi; it; tax; fst (net_income_of (operating_profit_of gp sga) ie oi it); sh; np_array eps].
Proof.
  intros Hgm Hsm Hom Heps.
  destruct (operating_profit_of_shape gp sga Fgp Fsga) as (Fop & Lop).
  unfold display_labels.
  repeat apply Forall2_cons; try apply Forall2_nil; try assumption;
    try apply labelled_np_array.
  - eapply percent_of_revenue_labelled; [| | exact Hgm]; assumption.
  - eapply percent_of_revenue_labelled; [| | exact Hsm]; assumption.
  - exact Lop.
  - eapply percent_of_revenue_labelled; [| | exact Hom]; assumption.
  - now apply net_income_of_labelled.
  - eapply income_share_list_labelled; [| | exact Heps]; assumption.
Qed.

(** Looking a label up in the table that was rendered. *)
Lemma metrics_find gm sm om eps i L r :
  snd (gross_margin_list rev cost) = inr gm ->
  snd (sga_margin_list rev sga) = inr sm ->
  snd (operating_profit_margin_list rev (operating_profit_of gp sga)) = inr om ->
  snd (income_share_list sh (fst (net_income_of (operating_profit_of gp sga) ie oi it))) = inr eps ->
  nth_error display_labels i = Some L ->
  nth_error [rev; cost; np_array gm; gp; sga; np_array sm; np_array (operating_profit_of gp sga);
             np_array om; ie; oi; it; tax; fst (net_income_of (operating_profit_of gp sga) ie oi it); sh; np_array eps] i = Some r ->
  find_metric L
    (value_astype_str
       (filter len4
          [rev; cost; np_array gm; gp; sga; np_array sm; np_array (operating_profit_of gp sga);
           np_array om; ie; oi; it; tax; fst (net_income_of (operating_profit_of gp sga) ie oi it); sh; np_array eps])) =
  if len4 r then Some (value_str r) else None.
Proof.
  intros Hgm Hsm Hom Heps HL Hr.
  rewrite find_metric_astype.
  rewrite (find_metric_slot _ _ (metrics_rows_labelled _ _ _ _ Hgm Hsm Hom Heps)
             display_labels_nodup i L r HL Hr).
  now destruct (len4 r).
Qed.

End Metrics.

(** ** Submission dates of shaped rows *)

Lemma filed_of_fact r :
  fact_shape r -> len4 r = true ->
  filed_of r = Some (row_filed r) /\
  filed_of (value_str r) = Some (row_filed r) /\
  filed_of (value_str (np_array r)) = Some (row_filed r).
Proof. destruct 1; try discriminate. intros _. repeat split. Qed.

Lemma row_filed_eqb a b :
  fact_shape a -> fact_shape b -> len4 a = true -> len4 b = true ->
  cell_eqb (row_filed a) (row_filed b) = true <-> row_filed a = row_filed b.
Proof.
  destruct 1; try discriminate. destruct 1; try discriminate. intros _ _.
  cbn. rewrite String.eqb_eq. split; [now intros -> | now intros [= ->]].
Qed.

Lemma len4_net_income_of o i e t : len4 (fst (net_income_of o i e t)) = aligned4_b o i e t.
Proof. unfold net_income_of. now destruct (aligned4_b o i e t). Qed.

Lemma row_filed_operating_profit_of gp sga :
  len4 (operating_profit_of gp sga) = true ->
  aligned_b gp sga = true /\ row_filed (operating_profit_of gp sga) = row_filed gp.
Proof.
  unfold operating_profit_of. destruct (aligned_b gp sga); [now split | discriminate].
Qed.

(** The shapes of the nine rows read from any world. *)
Lemma rows_ok w c :
  (labelled "Revenue" (revenue_row w c) /\ fact_shape (revenue_row w c)) /\
  (labelled "Cost Of Revenue" (cost_row w c) /\ fact_shape (cost_row w c)) /\
  (labelled "Gross Profit" (profit_row w c) /\ fact_shape (profit_row w c)) /\
  (labelled "Selling, General & Admin Costs" (sga_row w c) /\ fact_shape (sga_row w c)) /\
  (labelled "Interest Expense" (interest_row w c) /\ fact_shape (interest_row w c)) /\
  (labelled "Other Nonoperating Income (Expense), net" (income_row w c)
   /\ fact_shape (income_row w c)) /\
  (labelled "Income Taxes Paid, Net" (income_tax_row w c) /\ fact_shape (income_tax_row w c)) /\
  labelled "Effective Tax Rate" (tax_row w c) /\
  (labelled "Common Stock Shares Outstanding" (shares_row w c) /\ fact_shape (shares_row w c)).
Proof.
  destruct (getRevenue_ok w c) as (_ & _ & A1 & B1).
  destruct (getCostRevenue_ok w c) as (_ & _ & A2 & B2).
  destruct (getGrossProfit_ok w c) as (_ & _ & A3 & B3).
  destruct (getSGA_ok w c) as (_ & _ & A4 & B4).
  destruct (getInterestExpense_ok w c) as (_ & _ & A5 & B5).
  destruct (getIncomeExpense_ok w c) as (_ & _ & A6 & B6).
  destruct (getIncomeTax_ok w c) as (_ & _ & A7 & B7).
  destruct (getTaxRate_ok w c) as (_ & _ & A8).
  destruct (getShares_ok w c) as (_ & _ & A9 & B9).
  exact (conj (conj A1 B1) (conj (conj A2 B2) (conj (conj A3 B3) (conj (conj A4 B4)
        (conj (conj A5 B5) (conj (conj A6 B6) (conj (conj A7 B7) (conj A8 (conj A9 B9))))))))).
Qed.

(** Every metrics table that [main] renders is the guarded concatenation
    of the fifteen candidate rows of its run. *)
Lemma rendered_metrics_rows w user_input spend submitted t :
  rendered_metrics (main w user_input spend submitted) = Some t ->
  exists c gm sm om eps,
    let op := operating_profit_of (profit_row w c) (sga_row w c) in
    let ni := net_income_of op (interest_row w c) (income_row w c) (income_tax_row w c) in
    let rows := [revenue_row w c; cost_row w c; np_array gm; profit_row w c; sga_row w c;
                 np_array sm; np_array op; np_array om; interest_row w c; income_row w c;
                 income_tax_row w c; tax_row w c; fst ni; shares_row w c; np_array eps] in
    snd (getCIK w (upper (strip user_input))) = inr (Some c) /\
    snd (gross_margin_list (revenue_row w c) (cost_row w c)) = inr gm /\
    snd (sga_margin_list (revenue_row w c) (sga_row w c)) = inr sm /\
    snd (operating_profit_margin_list (revenue_row w c) op) = inr om /\
    snd (income_share_list (shares_row w c) (fst ni)) = inr eps /\
    t = value_astype_str (filter len4 rows) /\
    forall i L r, nth_error display_labels i = Some L -> nth_error rows i = Some r ->
                  find_metric L t = if len4 r then Some (value_str r) else None.
Proof.
  intros H. apply rendered_metrics_inv in H as (c & v & Hc & D).
  rewrite display_table_snd in D.
  apply metrics_of_inv in D as (gm & sm & om & eps & Hgm & Hsm & Hom & Heps & -> & _).
  exists c, gm, sm, om, eps. cbv zeta.
  split; [exact Hc |]. split; [exact Hgm |]. split; [exact Hsm |].
  split; [exact Hom |]. split; [exact Heps |]. split; [reflexivity |].
  intros i L r HL Hr.
  destruct (rows_ok w c) as ((L1 & F1) & (L2 & F2) & (L3 & F3) & (L4 & F4) & (L5 & F5)
                              & (L6 & F6) & (L7 & F7) & L8 & (L9 & F9)).
  exact (metrics_find _ _ _ _ _ _ _ _ _ L1 L2 L3 L4 L5 L6 L7 L8 L9 F1 F2 F3 F4 F9
           gm sm om eps i L r Hgm Hsm Hom Heps HL Hr).
Qed.

(** ** Net Income and its gate *)

Lemma aligned4_b_true o i e t :
  aligned4_b o i e t = true <->
  len4 o = true /\ len4 i = true /\ len4 e = true /\ len4 t = true /\
  cell_eqb (row_filed o) (row_filed i) = true /\
  cell_eqb (row_filed i) (row_filed e) = true /\
  cell_eqb (row_filed e) (row_filed t) = true.
Proof. unfold aligned4_b. rewrite !andb_true_iff. tauto. Qed.



(** ** Operating Margin *)

(** C10. Whenever the Operating Margin row is in a rendered metrics table,
    the Revenue, Gross Profit and SG&A rows are there too and their
    submission dates are identical; the Operating Profit row carries that
    same date, which is Gross Profit's. *)
Theorem operating_margin_aligns_three_primitives w user_input spend submitted t :
  rendered_metrics (main w user_input spend submitted) = Some t ->
  has_metric "Operating Margin" t = true ->
  operating_margin_dates t.
Proof.
  intros H.
  destruct (rendered_metrics_rows _ _ _ _ _ H)
    as (c & gm & sm & om & eps & _ & _ & _ & Hom & _ & _ & Hfind).
  cbv zeta in Hom, Hfind.
  destruct (rows_ok w c) as ((_ & F1) & _ & (_ & F3) & (_ & F4) & _).
  destruct (operating_profit_of_shape _ _ F3 F4) as (Fop & _).
  pose proof (Hfind 0%nat _ _ eq_refl eq_refl) as Irev.
  pose proof (Hfind 3%nat _ _ eq_refl eq_refl) as Igp.
  pose proof (Hfind 4%nat _ _ eq_refl eq_refl) as Isga.
  pose proof (Hfind 6%nat _ _ eq_refl eq_refl) as Iop.
  pose proof (Hfind 7%nat _ _ eq_refl eq_refl) as Iom.
  clear Hfind. rewrite len4_np_array in Iop, Iom.
  unfold operating_margin_dates, has_metric. rewrite Iom.
  apply percent_of_revenue_inr in Hom as [(A & _ & ->) | (_ & ->)]; try assumption;
    [intros _ | discriminate].
  unfold aligned_b in A. apply andb_true_iff in A as (A & E).
  apply andb_true_iff in A as (Lr & Lo).
  destruct (row_filed_operating_profit_of _ _ Lo) as (B & Eo).
  unfold aligned_b in B. apply andb_true_iff in B as (B & Eg).
  apply andb_true_iff in B as (Lg & Ls).
  apply row_filed_eqb in E; try assumption.
  apply row_filed_eqb in Eg; try assumption.
  rewrite Lr in Irev. rewrite Lg in Igp. rewrite Ls in Isga. rewrite Lo in Iop.
  exists (value_str (revenue_row w c)), (value_str (profit_row w c)),
    (value_str (sga_row w c)),
    (value_str (np_array (operating_profit_of (profit_row w c) (sga_row w c)))),
    (row_filed (revenue_row w c)).
  repeat (split; [assumption |]).
  split; [now apply filed_of_fact |].
  split; [rewrite E, Eo; now apply filed_of_fact |].
  split; [rewrite E, Eo, Eg; now apply filed_of_fact |].
  rewrite E; now apply filed_of_fact.
Qed.

Lemma operating_margin_aligns_three_primitives_witness :
  rendered_metrics (main acme "acme" (1000000 # 1) true) = Some acme_metrics /\
  has_metric "Operating Margin" acme_metrics = true /\
  operating_margin_dates acme_metrics.
Proof.
  split; [vm_compute; reflexivity |]. split; [reflexivity |].
  apply (operating_margin_aligns_three_primitives acme "acme" (1000000 # 1) true).
  - vm_compute; reflexivity.
  - reflexivity.
Defined.

(** ** Gross Margin *)





(** ** Rounding and truncation *)




(** [int(x)] drops the fractional part, towards zero. *)
Lemma py_int_nonneg x :
  (0 <= x -> inject_Z (py_int x) <= x /\ x < inject_Z (py_int x) + 1)%Q.
Proof.
  intros H. unfold py_int.
  assert (N : (0 <= Qnum x)%Z) by (unfold Qle in H; simpl in H; lia).
  rewrite Z.quot_div_nonneg by lia.
  destruct x as [n d]. cbn [Qnum Qden] in *.
  change (n / Z.pos d)%Z with (Qfloor (n # d)).
  split; [apply Qfloor_le |].
  pose proof (Qlt_floor (n # d)) as Hu. rewrite inject_Z_plus in Hu. exact Hu.
Qed.

Lemma py_int_opp x : py_int (- x) = (- py_int x)%Z.
Proof. unfold py_int. destruct x as [n d]. cbn [Qnum Qden Qopp]. apply Z.quot_opp_l. lia. Qed.

Lemma py_int_nonpos x :
  (x <= 0 -> x <= inject_Z (py_int x) /\ inject_Z (py_int x) - 1 < x)%Q.
Proof.
  intros H. destruct (py_int_nonneg (- x)) as (A & B); [lra |].
  rewrite py_int_opp, inject_Z_opp in A, B. split; lra.
Qed.


(** ** The competitor spend *)


(** ** The comparison table *)

Ltac bind_inv H :=
  let x := fresh "x" in
  apply bind_inr in H as (x & _ & H); cbv beta zeta in H.

(** A guarded block of [spend_table]: split on its guard and read off
    what the block returned. *)
Ltac block_inv H :=
  match type of H with
  | snd (if ?c then _ else _) = inr _ => destruct c eqn:?
  end;
  repeat bind_inv H;
  cbn [ret snd] in H;
  injection H as <-.

(** A block leaves the table it was given as a prefix of its result. *)
Ltac block_ext H :=
  block_inv H; cbn [fst snd]; unfold append_row;
  [ eexists; split; [rewrite <- ?app_assoc; reflexivity | reflexivity]
  | exists []; split; [now rewrite app_nil_r | reflexivity] ].

(** Whenever [spend_table] returns, its table is the two spend rows
    between the rows of the guarded blocks, in source order. *)
Lemma spend_table_inv v spend st :
  snd (spend_table v spend) = inr st ->
  exists p1 p2,
    st = p1 ++ [oci_spend_row spend; amount_saved_row spend] ++ p2 /\
    labels st = comparison_labels v.
Proof.
  unfold spend_table. cbv zeta. intros H.
  apply bind_inr in H as (t1 & H1 & H). cbv beta zeta in H.
  apply bind_inr in H as (a & Ha & H). cbv beta zeta in H.
  apply bind_inr in H as (ok1 & O1 & H). cbv beta zeta in H.
  apply bind_inr in H as (t2 & H2 & H). cbv beta zeta in H.
  apply bind_inr in H as (b & Hb & H). cbv beta zeta in H.
  apply bind_inr in H as (ok2 & O2 & H). cbv beta zeta in H.
  apply bind_inr in H as (t3 & H3 & H). cbv beta zeta in H.
  apply bind_inr in H as (c & Hc & H). cbv beta zeta in H.
  rewrite aligned_spec in O1, O2. cbn [ret snd] in O1, O2.
  injection O1 as <-. injection O2 as <-.
  fold (oci_spend_row spend) in Ha. fold (amount_saved_row spend) in Ha.
  set (base := append_row (append_row t1 (oci_spend_row spend)) (amount_saved_row spend)) in *.
  assert (E1 : exists p, t1 = [] ++ p /\
                 labels p = if len4 (l_sga_row v)
                            then [Some "% of SGA for Original Tech Spend"] else [])
    by block_ext H1.
  assert (Ea : exists p, fst a = base ++ p /\
                 labels p = if len4 (l_sga_row v) then [Some "SGA when Using OCI"] else [])
    by block_ext Ha.
  assert (E2 : exists p, t2 = fst a ++ p /\
                 labels p = if aligned_b (l_revenue_row v) (l_sga_row v)
                            then [Some "SGA percent of Revenue (with OCI)";
                                  Some "Change In SGA percent of Revenue"] else [])
    by block_ext H2.
  assert (Eb : exists p, fst b = t2 ++ p /\
                 labels p = if len4 (l_operating_profit_list v)
                            then [Some "Operating Profit"] else [])
    by block_ext Hb.
  assert (E3 : exists p, t3 = fst b ++ p /\
                 labels p = if aligned_b (l_revenue_row v) (l_operating_profit_list v)
                            then [Some "Operating Profit Margin (with OCI)";
                                  Some "Change In Operating Margin"] else [])
    by block_ext H3.
  assert (Ec : exists p, fst c = t3 ++ p /\
                 labels p = if len4 (l_net_income_row v)
                            then [Some "Net Income (with OCI)"] else [])
    by block_ext Hc.
  assert (E : exists p, st = fst c ++ p /\
                labels p = if len4 (l_income_share_list v)
                           then [Some "Net Income per share - Diluted (with OCI)";
                                 Some "Net Income per share - Diluted (change)"] else [])
    by block_ext H.
  clear H1 Ha H2 Hb H3 Hc H.
  destruct E1 as (p1 & -> & L1). destruct Ea as (pa & Qa & La).
  destruct E2 as (p2 & -> & L2). destruct Eb as (pb & Qb & Lb).
  destruct E3 as (p3 & -> & L3). destruct Ec as (pc & Qc & Lc).
  destruct E as (p & -> & L).
  rewrite Qc, Qb, Qa. subst base. unfold append_row. cbn [app].
  exists p1, (pa ++ p2 ++ pb ++ p3 ++ pc ++ p). split.
  - rewrite <- !app_assoc. reflexivity.
  - unfold labels, comparison_labels in *. rewrite !map_app.
    rewrite L1, La, L2, Lb, L3, Lc, L. cbn [map]. rewrite <- !app_assoc. reflexivity.
Qed.

Lemma spend_table_rows v spend st :
  snd (spend_table v spend) = inr st ->
  In (oci_spend_row spend) st /\ In (amount_saved_row spend) st.
Proof.
  intros H. apply spend_table_inv in H as (p1 & p2 & -> & _).
  split; apply in_or_app; right; cbn; tauto.
Qed.

Lemma has_metric_labels L t :
  has_metric L t = existsb (fun o => match o with
                                     | Some l => String.eqb l L
                                     | None => false
                                     end) (labels t).
Proof.
  unfold has_metric, find_metric, labels. induction t as [| r t IH]; [reflexivity |].
  cbn [find map existsb]. destruct r as [| [l | n] r]; cbn [label_is label]; try exact IH.
  destruct (String.eqb l L); [reflexivity | exact IH].
Qed.

(** Each comparison row is gated exactly as the rows it consumes. *)
Lemma spend_table_gates v spend st :
  snd (spend_table v spend) = inr st ->
  has_metric "% of SGA for Original Tech Spend" st = len4 (l_sga_row v) /\
  has_metric "SGA when Using OCI" st = len4 (l_sga_row v) /\
  has_metric "SGA percent of Revenue (with OCI)" st
  = aligned_b (l_revenue_row v) (l_sga_row v) /\
  has_metric "Change In SGA percent of Revenue" st
  = aligned_b (l_revenue_row v) (l_sga_row v) /\
  has_metric "Operating Profit" st = len4 (l_operating_profit_list v) /\
  has_metric "Operating Profit Margin (with OCI)" st
  = aligned_b (l_revenue_row v) (l_operating_profit_list v) /\
  has_metric "Change In Operating Margin" st
  = aligned_b (l_revenue_row v) (l_operating_profit_list v) /\
  has_metric "Net Income (with OCI)" st = len4 (l_net_income_row v) /\
  has_metric "Net Income per share - Diluted (with OCI)" st = len4 (l_income_share_list v) /\
  has_metric "Net Income per share - Diluted (change)" st = len4 (l_income_share_list v).
Proof.
  intros H. apply spend_table_inv in H as (p1 & p2 & _ & L).
  rewrite !has_metric_labels, L. unfold comparison_labels.
  destruct (len4 (l_sga_row v)), (aligned_b (l_revenue_row v) (l_sga_row v)),
    (len4 (l_operating_profit_list v)),
    (aligned_b (l_revenue_row v) (l_operating_profit_list v)),
    (len4 (l_net_income_row v)), (len4 (l_income_share_list v));
    repeat split; reflexivity.
Qed.

(** ** Division by a fetched zero *)


(** A Revenue value of zero that is aligned with the cost aborts the run. *)
Lemma zero_revenue_aborts w c :
  aligned_b (revenue_row w c) (cost_row w c) = true ->
  is_zero (row_val (revenue_row w c)) = true ->
  snd (display_table w c) = inl ZeroDivisionError.
Proof.
  intros A Z. rewrite display_table_snd. unfold metrics_of, gross_margin_list.
  destruct (rows_ok w c) as ((_ & F1) & (_ & F2) & _).
  fold (revenue_row w c). fold (cost_row w c).
  rewrite percent_of_revenue_spec by assumption. now rewrite A, Z.
Qed.

(** C3, at the failing inputs.  With a fetched Revenue of 0 aligned with
    the cost, [main] raises [ZeroDivisionError] and renders no table; with
    a fetched SG&A of 0 it raises after the metrics table, and the
    comparison table is never rendered. *)
Theorem zero_divisor_escapes_main :
  snd (main zero_revenue_co "acme" (1000000 # 1) true) = inl ZeroDivisionError /\
  tables_of (fst (main zero_revenue_co "acme" (1000000 # 1) true)) = [] /\
  snd (main zero_sga_co "acme" (1000000 # 1) true) = inl ZeroDivisionError /\
  rendered_metrics (main zero_sga_co "acme" (1000000 # 1) true)
  = Some [[CStr "Selling, General & Admin Costs"; CStr "0"; CStr "10-K"; CStr "2024-01-01"]] /\
  rendered_comparison (main zero_sga_co "acme" (1000000 # 1) true) = None.
Proof. repeat split; vm_compute; reflexivity. Qed.

(** ** The re-derived figures *)

(** C4, at the failing input.  On [acme] (Gross Profit 5,000,000, SG&A
    2,000,000, Revenue 8,000,000, spend 1,000,000, saving 602,500) the
    comparison row labelled "Operating Profit" shows SG&A less the saving,
    the figure of the row "SGA when Using OCI", not Operating Profit plus
    the saving; and the margin "with OCI" is that of Operating Profit less
    the saving. *)
Theorem operating_profit_with_oci_is_not_raised_by_saving :
  rendered_comparison (main acme "acme" (1000000 # 1) true) = Some acme_comparison /\
  find_metric "Operating Profit" acme_metrics
  = Some [CStr "Operating Profit"; CStr "3000000"; CStr "10-K"; CStr "2024-02-01"] /\
  find_metric "SGA when Using OCI" acme_comparison
  = Some [CStr "SGA when Using OCI"; dollars ((2000000 # 1) - tech_saved (1000000 # 1))] /\
  find_metric "Operating Profit" acme_comparison
  = Some [CStr "Operating Profit"; dollars ((2000000 # 1) - tech_saved (1000000 # 1))] /\
  dollars ((2000000 # 1) - tech_saved (1000000 # 1)) = CStr "$1,397,500.00" /\
  dollars ((3000000 # 1) + tech_saved (1000000 # 1)) = CStr "$3,602,500.00" /\
  find_metric "Operating Profit Margin (with OCI)" acme_comparison
  = Some [CStr "Operating Profit Margin (with OCI)";
          percent (round2 (((3000000 # 1) - tech_saved (1000000 # 1)) / (8000000 # 1) * 100))] /\
  percent (round2 (((3000000 # 1) - tech_saved (1000000 # 1)) / (8000000 # 1) * 100))
  = CStr "29.97%" /\
  percent (round2 (((3000000 # 1) + tech_saved (1000000 # 1)) / (8000000 # 1) * 100))
  = CStr "45.03%" /\
  find_metric "Net Income (with OCI)" acme_comparison
  = Some [CStr "Net Income (with OCI)"; dollars ((2450000 # 1) + tech_saved (1000000 # 1))].
Proof. repeat split; vm_compute; reflexivity. Qed.

(** ** The Net Income value *)




(** ** Absent facts *)








(** ** Tickers that are not in the map *)







(** ** The spend rows of the comparison table *)

(** Every comparison table that [main] renders holds the OCI Spend and
    the Amount Saved rows, computed from the spend alone. *)
Lemma rendered_comparison_has_spend_rows w user_input spend submitted st :
  rendered_comparison (main w user_input spend submitted) = Some st ->
  In (oci_spend_row spend) st /\ In (amount_saved_row spend) st.
Proof.
  intros H. apply rendered_comparison_inv in H as (c & t & v & _ & _ & H).
  now apply spend_table_rows in H.
Qed.

Lemma aligned_b_absent_l a b : len4 a = false -> aligned_b a b = false.
Proof. unfold aligned_b. now intros ->. Qed.

Lemma aligned_b_absent_r a b : len4 b = false -> aligned_b a b = false.
Proof. unfold aligned_b. intros ->. now rewrite andb_false_r. Qed.

(** With all nine facts absent the run returns, the metrics table is
    empty and the comparison table is exactly the two spend rows. *)
Lemma all_absent_run w user_input spend c :
  nonempty (upper (strip user_input)) = true ->
  snd (getCIK w (upper (strip user_input))) = inr (Some c) ->
  len4 (revenue_row w c) = false -> len4 (cost_row w c) = false ->
  len4 (profit_row w c) = false -> len4 (sga_row w c) = false ->
  len4 (interest_row w c) = false -> len4 (income_row w c) = false ->
  len4 (income_tax_row w c) = false -> len4 (tax_row w c) = false ->
  len4 (shares_row w c) = false ->
  tables_of (fst (main w user_input spend true))
  = [[]; [oci_spend_row spend; amount_saved_row spend]] /\
  snd (main w user_input spend true) = inr tt.
Proof.
  intros Hne Hc A1 A2 A3 A4 A5 A6 A7 A8 A9.
  destruct (main_found w user_input spend c Hne Hc) as (-> & ->).
  destruct (rows_ok w c) as ((_ & F1) & (_ & F2) & (_ & F3) & (_ & F4) & _ & _ & _
                              & _ & (_ & F9)).
  rewrite display_table_snd. unfold metrics_of.
  fold (revenue_row w c) (cost_row w c) (profit_row w c) (sga_row w c)
    (interest_row w c) (income_row w c) (income_tax_row w c) (tax_row w c)
    (shares_row w c).
  unfold gross_margin_list, sga_margin_list, operating_profit_margin_list,
    operating_profit_of.
  rewrite (aligned_b_absent_l _ _ A3).
  rewrite !percent_of_revenue_spec by (assumption || constructor).
  rewrite !(aligned_b_absent_l _ _ A1). cbn [ret snd].
  unfold net_income_of. change (aligned4_b [] _ _ _) with false. cbv iota. cbn [fst snd].
  unfold income_share_list. rewrite aligned_spec, (aligned_b_absent_l _ _ A9).
  autorewrite with py. cbn [ret snd filter np_array map].
  change (len4 []) with false.
  rewrite A1, A2, A3, A4, A5, A6, A7, A8, A9. cbn [value_astype_str map fst snd].
  unfold spend_table.
  cbn [l_revenue_row l_sga_row l_operating_profit_list l_net_income_row
       l_net_income_val l_shares_row l_income_share_list].
  change (len4 []) with false. rewrite A4. cbv zeta.
  repeat progress (rewrite ?aligned_spec, ?(aligned_b_absent_l _ _ A1);
                   autorewrite with py; cbn [fst snd]).
  split; reflexivity.
Qed.

(** C9, at the failing inputs.  On [pre_revenue_co] the CIK resolves, and
    the division of SG&A by the Revenue of 0 aborts the run before any
    table is rendered; on [zero_sga_co] the metrics table is rendered and
    the division of the spend by the SG&A of 0 aborts the run before the
    spend rows are appended.  In both runs no comparison table holds the
    OCI Spend and Amount Saved rows. *)
Theorem comparison_table_lost_to_zero_divisor :
  snd (getCIK pre_revenue_co (upper (strip "acme"))) = inr (Some acme_cik) /\
  snd (main pre_revenue_co "acme" (1000000 # 1) true) = inl ZeroDivisionError /\
  tables_of (fst (main pre_revenue_co "acme" (1000000 # 1) true)) = [] /\
  snd (getCIK zero_sga_co (upper (strip "acme"))) = inr (Some acme_cik) /\
  snd (main zero_sga_co "acme" (1000000 # 1) true) = inl ZeroDivisionError /\
  rendered_comparison (main zero_sga_co "acme" (1000000 # 1) true) = None.
Proof. repeat split; vm_compute; reflexivity. Qed.

(** ** No other exception *)


(** Symbolic evaluation of a block of [spend_table] on rows that are
    facts or absent; every division splits on its divisor. *)
Ltac run :=
  repeat first
    [ progress autorewrite with py
    | progress cbn [as_num py_float local fst snd]
    | rewrite aligned_spec
    | match goal with
      | H : len4 ?r = _ |- context [len4 ?r] => rewrite H
      | H : len4 ?r = false |- context [aligned_b ?r _] => rewrite (aligned_b_absent_l r _ H)
      | H : len4 ?r = false |- context [aligned_b _ ?r] => rewrite (aligned_b_absent_r _ r H)
      | |- context [aligned_b [_; _; _; ?d] [_; _; _; ?d']] =>
          change (aligned_b _ _) with (cell_eqb d d') at 1
      end
    | progress change (len4 [_; _; _; _]) with true
    | progress unfold div_by_val
    | match goal with
      | |- context [truediv ?a ?b] => unfold truediv at 1; destruct (is_zero b)
      | |- context [if cell_eqb ?a ?b then _ else _] => destruct (cell_eqb a b)
      end ].



(** ** The identifier lookup *)





(** Reading a zero-padded number back. *)
Lemma uint_of_string_zeros k s :
  NilEmpty.uint_of_string (zeros k ++ s)
  = option_map (Nat.iter k Decimal.D0) (NilEmpty.uint_of_string s).
Proof.
  induction k as [| k IH]; cbn [zeros append Nat.iter].
  - now destruct (NilEmpty.uint_of_string s).
  - cbn [NilEmpty.uint_of_string]. rewrite IH.
    now destruct (NilEmpty.uint_of_string s).
Qed.

Lemma N_of_uint_zeros k d : N.of_uint (Nat.iter k Decimal.D0 d) = N.of_uint d.
Proof. induction k as [| k IH]; [reflexivity | exact IH]. Qed.

Lemma str_N_digits n : str_N n = NilEmpty.string_of_uint (N.to_uint n).
Proof.
  unfold str_N, NilZero.string_of_uint.
  destruct (N.to_uint n) eqn:E; try reflexivity.
  destruct n as [| p]; [discriminate E |]. now apply Unsigned.to_uint_nonnil in E.
Qed.

Lemma length_zeros k : String.length (zeros k) = k.
Proof. induction k; cbn; congruence. Qed.

Lemma length_append s t : String.length (s ++ t) = (String.length s + String.length t)%nat.
Proof. induction s; cbn; congruence. Qed.

(** X2. The CIK string that [getCIK] builds for an entry has at least ten
    characters (the longer of ten and the decimal length of the number),
    and read back as a decimal number it is the entry's CIK: the padding
    loses nothing. *)
Theorem zero_padded_cik_round_trip (n : N) :
  N_of_digits (zfill 10 (str_N n)) = Some n /\
  String.length (zfill 10 (str_N n)) = Nat.max 10 (String.length (str_N n)).
Proof.
  split.
  - unfold N_of_digits, zfill. rewrite uint_of_string_zeros, str_N_digits, NilEmpty.usu.
    cbn [option_map]. now rewrite N_of_uint_zeros, DecimalN.Unsigned.of_to.
  - unfold zfill. rewrite length_append, length_zeros. lia.
Qed.

(** ** Blank input and failed lookups *)












(** ** What a fetcher reads *)





(** A fetched row of four cells is an annual fact under the fetcher's label. *)
Lemma latest_10k_annual w c tag unit label r :
  snd (latest_10k w c tag unit label) = inr r ->
  r = [CStr label] \/ exists n d, r = [CStr label; CNum n; CStr "10-K"; CStr d].
Proof.
  rewrite latest_10k_snd.
  destruct (w _) as [| [es | units |]]; try discriminate.
  destruct (lookup unit units) as [[| o obs] |]; try discriminate.
  intros [= <-].
  destruct (rev (filter (fun x => String.eqb (form x) "10-K") (o :: obs)))
    as [| o' l] eqn:R; cbn [filter] in R; rewrite R; [left; reflexivity | right].
  assert (I : In o' (filter (fun x => String.eqb (form x) "10-K") (o :: obs))).
  { apply in_rev. cbn [filter]. rewrite R. now left. }
  apply filter_In in I as (_ & E). apply String.eqb_eq in E. rewrite E. eauto.
Qed.

Lemma fetched_annual_fact w c g tag unit label :
  In (g, (tag, unit, label)) concept_fetchers ->
  len4 (returned (g w c)) = true -> annual_fact label (returned (g w c)).
Proof.
  intros Hin. unfold concept_fetchers in Hin. cbn [In] in Hin.
  destruct Hin as [H | [H | [H | [H | [H | [H | [H | [H | [H | []]]]]]]]]];
    injection H as <- <- <- <-.
  1-5, 7, 9:
    unfold returned, getRevenue, getCostRevenue, getGrossProfit, getSGA,
      getInterestExpense, getIncomeTax, getShares, annual_fact;
    rewrite snd_catch_ret;
    destruct (snd (latest_10k _ _ _ _ _)) as [e | r] eqn:E; [discriminate |];
    apply latest_10k_annual in E as [-> | (n & d & ->)]; [discriminate | eauto].
  - unfold getIncomeExpense.
    destruct (transformed_fetch w c "OtherNonoperatingIncomeExpense" "USD"
                "Other Nonoperating Income (Expense), net" (fun n => CNum (py_abs n)))
      as (_ & _ & ->).
    destruct (snd (latest_10k _ _ _ _ _)) as [e | r] eqn:E; [discriminate |].
    apply latest_10k_annual in E as [-> | (n & d & ->)]; [discriminate |].
    intros _. unfold annual_fact. eauto.
  - unfold getTaxRate.
    destruct (transformed_fetch w c "EffectiveIncomeTaxRateContinuingOperations" "pure"
                "Effective Tax Rate" (fun n => CStr (py_str (py_mul n (PyInt 100)) ++ "%")))
      as (_ & _ & ->).
    destruct (snd (latest_10k _ _ _ _ _)) as [e | r] eqn:E; [discriminate |].
    apply latest_10k_annual in E as [-> | (n & d & ->)]; [discriminate |].
    intros _. unfold annual_fact. eauto.
Qed.

(** ** How a resolved run ends *)






(** ** The rows of a rendered metrics table *)

Lemma annual_fact_len4 L r : annual_fact L r -> len4 r = true.
Proof. now intros (v & d & ->). Qed.

Lemma annual_fact_np_array L r : annual_fact L r -> annual_fact L (np_array r).
Proof. intros (v & d & ->). unfold annual_fact. cbn. eauto. Qed.

Lemma annual_fact_labelled L r : annual_fact L r -> labelled L r.
Proof. intros (v & d & ->). constructor. Qed.

Lemma percent_row_annual L L' rev x :
  annual_fact L' rev -> annual_fact L (percent_row L rev x).
Proof. intros (v & d & ->). unfold annual_fact, percent_row. cbn. eauto. Qed.

Lemma aligned_b_len4 a b : aligned_b a b = true -> len4 a = true /\ len4 b = true.
Proof.
  unfold aligned_b. intros H. apply andb_true_iff in H as (H & _).
  now apply andb_true_iff in H.
Qed.

Lemma operating_profit_annual w c :
  len4 (operating_profit_of (profit_row w c) (sga_row w c)) = true ->
  annual_fact "Operating Profit" (operating_profit_of (profit_row w c) (sga_row w c)).
Proof.
  intros L. destruct (row_filed_operating_profit_of _ _ L) as (A & _).
  apply aligned_b_len4 in A as (Lg & _).
  assert (G : annual_fact "Gross Profit" (profit_row w c)).
  { apply (fetched_annual_fact w c getGrossProfit "GrossProfit" "USD" "Gross Profit");
      [cbn; tauto | exact Lg]. }
  unfold operating_profit_of in *. destruct (aligned_b _ _); [| discriminate L].
  destruct G as (v & d & ->). unfold annual_fact. cbn. eauto.
Qed.

Lemma net_income_annual w c :
  let op := operating_profit_of (profit_row w c) (sga_row w c) in
  let ni := fst (net_income_of op (interest_row w c) (income_row w c) (income_tax_row w c)) in
  len4 ni = true -> annual_fact "Net Income" ni.
Proof.
  cbv zeta. rewrite len4_net_income_of. intros A. unfold net_income_of. rewrite A.
  apply aligned4_b_true in A as (Lo & _).
  destruct (operating_profit_annual w c Lo) as (v & d & ->).
  unfold annual_fact. cbn. eauto.
Qed.

(** The fifteen candidate rows of a run: each one that has four cells is
    an annual fact under the label of its slot. *)
Lemma metrics_rows_annual w c gm sm om eps :
  let op := operating_profit_of (profit_row w c) (sga_row w c) in
  let ni := net_income_of op (interest_row w c) (income_row w c) (income_tax_row w c) in
  snd (gross_margin_list (revenue_row w c) (cost_row w c)) = inr gm ->
  snd (sga_margin_list (revenue_row w c) (sga_row w c)) = inr sm ->
  snd (operating_profit_margin_list (revenue_row w c) op) = inr om ->
  snd (income_share_list (shares_row w c) (fst ni)) = inr eps ->
  Forall2 (fun L r => len4 r = true -> annual_fact L r) display_labels
    [revenue_row w c; cost_row w c; np_array gm; profit_row w c; sga_row w c;
     np_array sm; np_array op; np_array om; interest_row w c; income_row w c;
     income_tax_row w c; tax_row w c; fst ni; shares_row w c; np_array eps].
Proof.
  cbv zeta. intros Hgm Hsm Hom Heps.
  destruct (rows_ok w c) as ((_ & F1) & (_ & F2) & (_ & F3) & (_ & F4) & _ & _ & _
                              & _ & (_ & F9)).
  destruct (operating_profit_of_shape _ _ F3 F4) as (Fop & _).
  assert (R : len4 (revenue_row w c) = true -> annual_fact "Revenue" (revenue_row w c))
    by (apply (fetched_annual_fact w c getRevenue "Revenues" "USD" "Revenue"); cbn; tauto).
  assert (P : forall L x r, fact_shape x ->
                snd (percent_of_revenue L (revenue_row w c) x) = inr r ->
                len4 (np_array r) = true -> annual_fact L (np_array r)).
  { intros L x r Fx H Lr.
    apply percent_of_revenue_inr in H as [(A & _ & ->) | (_ & ->)]; try assumption;
      [| discriminate Lr].
    apply aligned_b_len4 in A as (A & _).
    apply annual_fact_np_array, (percent_row_annual _ "Revenue"), R, A. }
  unfold display_labels.
  repeat apply Forall2_cons; try apply Forall2_nil.
  - exact R.
  - apply (fetched_annual_fact w c getCostRevenue "CostOfRevenue" "USD" "Cost Of Revenue").
    cbn; tauto.
  - exact (P _ _ _ F2 Hgm).
  - apply (fetched_annual_fact w c getGrossProfit "GrossProfit" "USD" "Gross Profit").
    cbn; tauto.
  - apply (fetched_annual_fact w c getSGA "SellingGeneralAndAdministrativeExpense" "USD"
             "Selling, General & Admin Costs").
    cbn; tauto.
  - exact (P _ _ _ F4 Hsm).
  - rewrite len4_np_array. intros L. apply annual_fact_np_array, operating_profit_annual, L.
  - exact (P _ _ _ Fop Hom).
  - apply (fetched_annual_fact w c getInterestExpense "InterestExpense" "USD"
             "Interest Expense").
    cbn; tauto.
  - apply (fetched_annual_fact w c getIncomeExpense "OtherNonoperatingIncomeExpense" "USD"
             "Other Nonoperating Income (Expense), net").
    cbn; tauto.
  - apply (fetched_annual_fact w c getIncomeTax "IncomeTaxesPaidNet" "USD"
             "Income Taxes Paid, Net").
    cbn; tauto.
  - apply (fetched_annual_fact w c getTaxRate "EffectiveIncomeTaxRateContinuingOperations"
             "pure" "Effective Tax Rate").
    cbn; tauto.
  - exact (net_income_annual w c).
  - apply (fetched_annual_fact w c getShares "CommonStockSharesOutstanding" "shares"
             "Common Stock Shares Outstanding").
    cbn; tauto.
  - intros Lr.
    apply income_share_list_inr in Heps as [(A & _ & ->) | (_ & ->)]; try assumption;
      [| discriminate Lr].
    apply aligned_b_len4 in A as (A & _). apply annual_fact_np_array.
    assert (S : annual_fact "Common Stock Shares Outstanding" (shares_row w c))
      by (apply (fetched_annual_fact w c getShares "CommonStockSharesOutstanding" "shares"
                   "Common Stock Shares Outstanding"); [cbn; tauto | exact A]).
    destruct S as (v & d & ->). unfold annual_fact, income_share_of. cbn. eauto.
Qed.

(** Rows kept by the guard, with the value column turned into strings. *)
Lemma kept_rows_are_metric_rows Ls rows :
  Forall2 (fun L r => len4 r = true -> annual_fact L r) Ls rows ->
  Forall (fun r => exists L v d, In L Ls /\ r = [CStr L; CStr v; CStr "10-K"; CStr d])
    (value_astype_str (filter len4 rows)).
Proof.
  induction 1 as [| L r Ls rows H HF IH]; [constructor |].
  assert (T : Forall (fun r => exists L0 v d, In L0 (L :: Ls) /\
                                 r = [CStr L0; CStr v; CStr "10-K"; CStr d])
                (value_astype_str (filter len4 rows))).
  { eapply Forall_impl; [| exact IH]. intros a (L0 & v & d & I & ->).
    exists L0, v, d. split; [now right | reflexivity]. }
  cbn [filter]. destruct (len4 r) eqn:E; [| exact T].
  cbn [value_astype_str map]. constructor; [| exact T].
  destruct (H eq_refl) as (v & d & ->). exists L, (cell_str v), d.
  split; [now left | reflexivity].
Qed.

Lemma Forall2_slots {A B} (P Q : A -> B -> Prop) (l : list A) (l' : list B) :
  Forall2 P l l' ->
  (forall i a b, nth_error l i = Some a -> nth_error l' i = Some b -> Q a b) ->
  Forall2 (fun a b => P a b /\ Q a b) l l'.
Proof.
  induction 1 as [| a b l l' H HF IH]; intros HQ; [constructor |].
  constructor.
  - split; [exact H | exact (HQ 0%nat a b eq_refl eq_refl)].
  - apply IH. intros i x y Hx Hy. exact (HQ (S i) x y Hx Hy).
Qed.

Lemma labels_of_kept_rows Ls rows (p : string -> bool) :
  Forall2 (fun L r => labelled L r /\ p L = len4 r) Ls rows ->
  labels (value_astype_str (filter len4 rows)) = map Some (filter p Ls).
Proof.
  induction 1 as [| L r Ls rows (H & E) HF IH]; [reflexivity |].
  cbn [filter]. rewrite E. destruct (len4 r) eqn:Lr; [| exact IH].
  cbn [value_astype_str map labels]. f_equal; [| exact IH].
  destruct H; try discriminate Lr. reflexivity.
Qed.

(** X8. Every row of a metrics table that [main] renders has exactly four
    string cells: a label of the fixed list, the value, the form "10-K"
    and a submission date.  The labels of the table are the fixed list of
    fifteen labels without those that are absent: they keep the source
    order and none is repeated. *)
Theorem rendered_metrics_rows_are_annual_string_rows w user_input spend submitted t :
  rendered_metrics (main w user_input spend submitted) = Some t ->
  Forall metric_row t /\
  labels t = map Some (filter (fun L => has_metric L t) display_labels).
Proof.
  intros H.
  destruct (rendered_metrics_rows _ _ _ _ _ H)
    as (c & gm & sm & om & eps & _ & Hgm & Hsm & Hom & Heps & Et & Hfind).
  cbv zeta in *.
  destruct (rows_ok w c) as ((L1 & F1) & (L2 & F2) & (L3 & F3) & (L4 & F4) & (L5 & F5)
                              & (L6 & F6) & (L7 & F7) & L8 & (L9 & F9)).
  split.
  - rewrite Et. apply kept_rows_are_metric_rows.
    exact (metrics_rows_annual w c gm sm om eps Hgm Hsm Hom Heps).
  - rewrite Et at 1. apply labels_of_kept_rows. apply Forall2_slots.
    + eapply metrics_rows_labelled; eassumption.
    + intros i L r HL Hr. unfold has_metric. rewrite (Hfind i L r HL Hr).
      now destruct (len4 r).
Qed.

Lemma rendered_metrics_rows_are_annual_string_rows_witness :
  rendered_metrics (main acme "acme" (1000000 # 1) true) = Some acme_metrics /\
  Forall metric_row acme_metrics /\
  labels acme_metrics = map Some (filter (fun L => has_metric L acme_metrics) display_labels).
Proof.
  split; [vm_compute; reflexivity |].
  apply (rendered_metrics_rows_are_annual_string_rows acme "acme" (1000000 # 1) true).
  vm_compute; reflexivity.
Defined.

(** ** The gates of the derived rows, read off the rendered table *)

Lemma filed_of_kept r : len4 r = true -> filed_of (value_str r) = Some (row_filed r).
Proof. intros H. apply len4_inv in H as (a & b & c & d & ->). reflexivity. Qed.

Lemma same_date_pair t La Lb a b :
  find_metric La t = (if len4 a then Some (value_str a) else None) ->
  find_metric Lb t = (if len4 b then Some (value_str b) else None) ->
  same_date_rows [La; Lb] t <->
  len4 a = true /\ len4 b = true /\ row_filed a = row_filed b.
Proof.
  intros Ha Hb. unfold same_date_rows. split.
  - intros (d & H).
    inversion H as [| ? ? (r1 & E1 & D1) H']; subst.
    inversion H' as [| ? ? (r2 & E2 & D2) _]; subst.
    rewrite Ha in E1. rewrite Hb in E2.
    destruct (len4 a) eqn:A; [| discriminate E1].
    destruct (len4 b) eqn:B; [| discriminate E2].
    injection E1 as <-. injection E2 as <-.
    rewrite (filed_of_kept _ A) in D1. rewrite (filed_of_kept _ B) in D2.
    repeat split. congruence.
  - intros (A & B & E). exists (row_filed a).
    constructor; [| constructor; [| constructor]].
    + exists (value_str a). rewrite Ha, A. split; [reflexivity | now apply filed_of_kept].
    + exists (value_str b). rewrite Hb, B. split; [reflexivity |].
      rewrite E. now apply filed_of_kept.
Qed.

Lemma aligned_b_annual La Lb a b :
  (len4 a = true -> annual_fact La a) -> (len4 b = true -> annual_fact Lb b) ->
  aligned_b a b = true <-> len4 a = true /\ len4 b = true /\ row_filed a = row_filed b.
Proof.
  intros Ha Hb. unfold aligned_b. rewrite !andb_true_iff. split.
  - intros ((A & B) & E). repeat split; try assumption.
    destruct (Ha A) as (v & d & ->). destruct (Hb B) as (v' & d' & ->).
    cbn in E |- *. apply String.eqb_eq in E. now subst.
  - intros (A & B & E). repeat split; try assumption. rewrite E.
    destruct (Hb B) as (v' & d' & ->). cbn. apply String.eqb_refl.
Qed.

Lemma aligned_b_np_array_r a b : fact_shape b -> aligned_b a (np_array b) = aligned_b a b.
Proof. destruct 1; reflexivity. Qed.

Lemma Forall2_slot {A B} (P : A -> B -> Prop) (l : list A) (l' : list B) :
  Forall2 P l l' ->
  forall i a b, nth_error l i = Some a -> nth_error l' i = Some b -> P a b.
Proof.
  induction 1 as [| x y l l' H HF IH]; intros i a b Ha Hb.
  - destruct i; discriminate.
  - destruct i as [| i]; cbn [nth_error] in Ha, Hb.
    + injection Ha as <-. injection Hb as <-. exact H.
    + exact (IH i a b Ha Hb).
Qed.

Lemma percent_row_gate L rev x r :
  fact_shape rev -> fact_shape x ->
  snd (percent_of_revenue L rev x) = inr r -> len4 r = aligned_b rev x.
Proof.
  intros Fr Fx H.
  apply percent_of_revenue_inr in H as [(A & _ & ->) | (A & ->)]; try assumption;
    now rewrite A.
Qed.

Lemma income_share_gate sh o i e x r :
  fact_shape sh -> fact_shape o ->
  snd (income_share_list sh (fst (net_income_of o i e x))) = inr r ->
  len4 r = aligned_b sh (fst (net_income_of o i e x)).
Proof.
  intros Fs Fo H.
  apply income_share_list_inr in H as [(A & _ & ->) | (A & ->)]; try assumption;
    now rewrite A.
Qed.

Lemma len4_operating_profit_of gp sga : len4 (operating_profit_of gp sga) = aligned_b gp sga.
Proof. unfold operating_profit_of. now destruct (aligned_b gp sga). Qed.

(** X9. In every metrics table that [main] renders, each derived row is
    present exactly when the two rows it is computed from are present and
    carry one submission date: Gross Margin with Revenue and Cost of
    Revenue, SGA Percent of Revenue with Revenue and SG&A, Operating
    Profit with Gross Profit and SG&A, Operating Margin with Revenue and
    Operating Profit, and the per-share row with the share count and Net
    Income. *)
Theorem derived_rows_iff_operands_share_a_date w user_input spend submitted t :
  rendered_metrics (main w user_input spend submitted) = Some t ->
  (has_metric "Gross Margin" t = true <->
   same_date_rows ["Revenue"; "Cost Of Revenue"] t) /\
  (has_metric "SGA Percent of Revenue" t = true <->
   same_date_rows ["Revenue"; "Selling, General & Admin Costs"] t) /\
  (has_metric "Operating Profit" t = true <->
   same_date_rows ["Gross Profit"; "Selling, General & Admin Costs"] t) /\
  (has_metric "Operating Margin" t = true <->
   same_date_rows ["Revenue"; "Operating Profit"] t) /\
  (has_metric "Net Income per share - Diluted" t = true <->
   same_date_rows ["Common Stock Shares Outstanding"; "Net Income"] t).
Proof.
  intros H.
  destruct (rendered_metrics_rows _ _ _ _ _ H)
    as (c & gm & sm & om & eps & _ & Hgm & Hsm & Hom & Heps & _ & Hfind).
  cbv zeta in *.
  pose proof (metrics_rows_annual w c gm sm om eps Hgm Hsm Hom Heps) as HA.
  cbv zeta in HA.
  destruct (rows_ok w c) as ((_ & F1) & (_ & F2) & (_ & F3) & (_ & F4) & _ & _ & _
                              & _ & (_ & F9)).
  destruct (operating_profit_of_shape _ _ F3 F4) as (Fop & _).
  assert (G : forall i j La Lb a b,
             nth_error display_labels i = Some La ->
             nth_error [revenue_row w c; cost_row w c; np_array gm; profit_row w c;
                        sga_row w c; np_array sm;
                        np_array (operating_profit_of (profit_row w c) (sga_row w c));
                        np_array om; interest_row w c; income_row w c;
                        income_tax_row w c; tax_row w c;
                        fst (net_income_of (operating_profit_of (profit_row w c) (sga_row w c))
                               (interest_row w c) (income_row w c) (income_tax_row w c));
                        shares_row w c; np_array eps] i = Some a ->
             nth_error display_labels j = Some Lb ->
             nth_error [revenue_row w c; cost_row w c; np_array gm; profit_row w c;
                        sga_row w c; np_array sm;
                        np_array (operating_profit_of (profit_row w c) (sga_row w c));
                        np_array om; interest_row w c; income_row w c;
                        income_tax_row w c; tax_row w c;
                        fst (net_income_of (operating_profit_of (profit_row w c) (sga_row w c))
                               (interest_row w c) (income_row w c) (income_tax_row w c));
                        shares_row w c; np_array eps] j = Some b ->
             same_date_rows [La; Lb] t <-> aligned_b a b = true).
  { intros i j La Lb a b HLa Ha HLb Hb.
    rewrite (same_date_pair t La Lb a b (Hfind i La a HLa Ha) (Hfind j Lb b HLb Hb)).
    symmetry. apply (aligned_b_annual La Lb).
    - exact (Forall2_slot _ _ _ HA i La a HLa Ha).
    - exact (Forall2_slot _ _ _ HA j Lb b HLb Hb). }
  unfold has_metric.
  rewrite (Hfind 2%nat _ _ eq_refl eq_refl), (Hfind 5%nat _ _ eq_refl eq_refl),
    (Hfind 6%nat _ _ eq_refl eq_refl), (Hfind 7%nat _ _ eq_refl eq_refl),
    (Hfind 14%nat _ _ eq_refl eq_refl).
  rewrite !len4_np_array.
  rewrite (percent_row_gate _ _ _ _ F1 F2 Hgm), (percent_row_gate _ _ _ _ F1 F4 Hsm),
    (percent_row_gate _ _ _ _ F1 Fop Hom), (income_share_gate _ _ _ _ _ _ F9 Fop Heps),
    len4_operating_profit_of.
  rewrite (G 0%nat 1%nat _ _ _ _ eq_refl eq_refl eq_refl eq_refl).
  rewrite (G 0%nat 4%nat _ _ _ _ eq_refl eq_refl eq_refl eq_refl).
  rewrite (G 3%nat 4%nat _ _ _ _ eq_refl eq_refl eq_refl eq_refl).
  rewrite (G 0%nat 6%nat _ _ _ _ eq_refl eq_refl eq_refl eq_refl).
  rewrite (G 13%nat 12%nat _ _ _ _ eq_refl eq_refl eq_refl eq_refl).
  rewrite (aligned_b_np_array_r _ _ Fop).
  repeat split; intros E;
    match goal with
    | |- match (if ?b then _ else _) with _ => _ end = true => rewrite E; reflexivity
    | |- ?b = true => destruct b; [reflexivity | discriminate E]
    end.
Qed.

Lemma derived_rows_iff_operands_share_a_date_witness :
  rendered_metrics (main misfiled_co "acme" (1000000 # 1) true)
  = Some [[CStr "Revenue"; CStr "1000"; CStr "10-K"; CStr "2024-01-01"];
          [CStr "Cost Of Revenue"; CStr "400"; CStr "10-K"; CStr "2023-12-31"]] /\
  ~ same_date_rows ["Revenue"; "Cost Of Revenue"]
      [[CStr "Revenue"; CStr "1000"; CStr "10-K"; CStr "2024-01-01"];
       [CStr "Cost Of Revenue"; CStr "400"; CStr "10-K"; CStr "2023-12-31"]].
Proof.
  split; [vm_compute; reflexivity |].
  intros S.
  apply (derived_rows_iff_operands_share_a_date misfiled_co "acme" (1000000 # 1) true) in S;
    [discriminate S | vm_compute; reflexivity].
Defined.

(** ** The comparison table against the metrics table *)

(** X10. When [main] renders both tables, each guarded row of the
    comparison table is present exactly when the metrics table has the
    row it is computed from: the two SG&A rows with SG&A, the two
    SG&A-margin rows with SGA Percent of Revenue, the Operating Profit row
    with Operating Profit, the two operating-margin rows with Operating
    Margin, Net Income (with OCI) with Net Income, and the two per-share
    rows with the per-share row; the OCI Spend and Amount Saved rows are
    always there. *)
Theorem comparison_rows_mirror_metrics_rows w user_input spend submitted t st :
  rendered_metrics (main w user_input spend submitted) = Some t ->
  rendered_comparison (main w user_input spend submitted) = Some st ->
  has_metric "% of SGA for Original Tech Spend" st
  = has_metric "Selling, General & Admin Costs" t /\
  has_metric "SGA when Using OCI" st = has_metric "Selling, General & Admin Costs" t /\
  has_metric "SGA percent of Revenue (with OCI)" st = has_metric "SGA Percent of Revenue" t /\
  has_metric "Change In SGA percent of Revenue" st = has_metric "SGA Percent of Revenue" t /\
  has_metric "Operating Profit" st = has_metric "Operating Profit" t /\
  has_metric "Operating Profit Margin (with OCI)" st = has_metric "Operating Margin" t /\
  has_metric "Change In Operating Margin" st = has_metric "Operating Margin" t /\
  has_metric "Net Income (with OCI)" st = has_metric "Net Income" t /\
  has_metric "Net Income per share - Diluted (with OCI)" st
  = has_metric "Net Income per share - Diluted" t /\
  has_metric "Net Income per share - Diluted (change)" st
  = has_metric "Net Income per share - Diluted" t /\
  has_metric "OCI Spend (Including Support Rewards)" st = true /\
  has_metric "Amount Saved (Between OCI & Origional Cloud Spend)" st = true.
Proof.
  intros H S.
  destruct (rendered_metrics_rows _ _ _ _ _ H)
    as (c & gm & sm & om & eps & Hc & Hgm & Hsm & Hom & Heps & _ & Hfind).
  cbv zeta in *.
  apply rendered_comparison_inv in S as (c' & t' & v & Hc' & D & S).
  rewrite Hc in Hc'. injection Hc' as <-.
  destruct (rows_ok w c) as ((_ & F1) & (_ & F2) & (_ & F3) & (_ & F4) & _ & _ & _
                              & _ & (_ & F9)).
  destruct (operating_profit_of_shape _ _ F3 F4) as (Fop & _).
  rewrite display_table_snd in D.
  apply metrics_of_inv in D as (gm' & sm' & om' & eps' & _ & _ & _ & Heps' & _ & ->).
  fold (shares_row w c) (profit_row w c) (sga_row w c) (interest_row w c) (income_row w c)
    (income_tax_row w c) in Heps'.
  rewrite Heps in Heps'. injection Heps' as <-.
  pose proof (spend_table_inv _ _ _ S) as (p1 & p2 & _ & L).
  destruct (spend_table_gates _ _ _ S)
    as (G1 & G2 & G3 & G4 & G5 & G6 & G7 & G8 & G9 & G10).
  cbn [l_revenue_row l_sga_row l_operating_profit_list l_net_income_row
       l_shares_row l_income_share_list] in *.
  rewrite G1, G2, G3, G4, G5, G6, G7, G8, G9, G10.
  unfold has_metric at 1 2 3 4 5 6 7 8 9 10.
  rewrite (Hfind 4%nat _ _ eq_refl eq_refl), (Hfind 5%nat _ _ eq_refl eq_refl),
    (Hfind 6%nat _ _ eq_refl eq_refl), (Hfind 7%nat _ _ eq_refl eq_refl),
    (Hfind 12%nat _ _ eq_refl eq_refl), (Hfind 14%nat _ _ eq_refl eq_refl).
  rewrite !len4_np_array.
  rewrite (percent_row_gate _ _ _ _ F1 F4 Hsm), (percent_row_gate _ _ _ _ F1 Fop Hom).
  rewrite !has_metric_labels, L. unfold comparison_labels.
  cbn [l_revenue_row l_sga_row l_operating_profit_list l_net_income_row
       l_shares_row l_income_share_list].
  unfold revenue_row, sga_row, profit_row, interest_row, income_row, income_tax_row,
    shares_row.
  destruct (len4 (returned (getSGA w c))),
    (aligned_b (returned (getRevenue w c)) (returned (getSGA w c))),
    (len4 (operating_profit_of (returned (getGrossProfit w c)) (returned (getSGA w c)))),
    (aligned_b (returned (getRevenue w c))
       (operating_profit_of (returned (getGrossProfit w c)) (returned (getSGA w c)))),
    (len4 (fst (net_income_of
                  (operating_profit_of (returned (getGrossProfit w c)) (returned (getSGA w c)))
                  (returned (getInterestExpense w c)) (returned (getIncomeExpense w c))
                  (returned (getIncomeTax w c))))),
    (len4 eps);
    repeat split; reflexivity.
Qed.

Lemma comparison_rows_mirror_metrics_rows_witness :
  rendered_metrics (main acme "acme" (1000000 # 1) true) = Some acme_metrics /\
  rendered_comparison (main acme "acme" (1000000 # 1) true) = Some acme_comparison /\
  has_metric "Net Income (with OCI)" acme_comparison = has_metric "Net Income" acme_metrics.
Proof.
  split; [vm_compute; reflexivity |]. split; [vm_compute; reflexivity |].
  apply (comparison_rows_mirror_metrics_rows acme "acme" (1000000 # 1) true);
    vm_compute; reflexivity.
Defined.

(** ** What a run logs *)

Lemma silent_ret {A} (a : A) : silent (ret a).
Proof. reflexivity. Qed.

Lemma silent_raise {A} (e : Exn) : silent (@raise A e).
Proof. reflexivity. Qed.

Lemma silent_bind {A B} (m : M A) (f : A -> M B) :
  silent m -> (forall a, silent (f a)) -> silent (bind m f).
Proof.
  unfold silent. intros Hm Hf. rewrite fst_bind.
  destruct (snd m); [exact Hm |]. now rewrite Hm, Hf.
Qed.

Lemma silent_getitem r i : silent (getitem r i).
Proof.
  unfold getitem. destruct (_ && _)%bool; [| apply silent_raise].
  destruct (nth_error _ _); [apply silent_ret | apply silent_raise].
Qed.

Lemma silent_as_num c : silent (as_num c).
Proof. destruct c; [apply silent_raise | apply silent_ret]. Qed.

Lemma silent_py_float c : silent (py_float c).
Proof.
  destruct c; cbn; [| apply silent_ret].
  destruct (parse_float s); [apply silent_ret | apply silent_raise].
Qed.

Lemma silent_truediv a b : silent (truediv a b).
Proof. unfold truediv. destruct (is_zero b); [apply silent_raise | apply silent_ret]. Qed.

Lemma silent_local {A} (v : option A) : silent (local v).
Proof. destruct v; [apply silent_ret | apply silent_raise]. Qed.

Ltac silent_step :=
  lazymatch goal with
  | |- silent (ret _) => apply silent_ret
  | |- silent (raise _) => apply silent_raise
  | |- silent (getitem _ _) => apply silent_getitem
  | |- silent (as_num _) => apply silent_as_num
  | |- silent (py_float _) => apply silent_py_float
  | |- silent (truediv _ _) => apply silent_truediv
  | |- silent (local _) => apply silent_local
  | |- silent (bind _ _) => apply silent_bind; [| intros ?]
  | |- silent (if ?b then _ else _) => destruct b
  | |- silent (let _ := _ in _) => cbv zeta
  end.

Lemma silent_aligned a b : silent (aligned a b).
Proof. unfold aligned. repeat silent_step. Qed.


Lemma silent_operating_profit_list a b : silent (operating_profit_list a b).
Proof.
  unfold operating_profit_list. apply silent_bind; [apply silent_aligned | intros ?].
  repeat silent_step.
Qed.

Lemma silent_net_income_row a b c d : silent (net_income_row a b c d).
Proof. unfold net_income_row. repeat silent_step. Qed.




















(** ** The spend arithmetic *)



(** ** The values of the comparison rows *)












